(** * GlichtedOracle ticket bot: a shallow embedding of [src/Python/main.py]

    The development follows the source file top to bottom:
    - [Py]: the Python built-ins the bot relies on (truthiness of strings,
      [int(str)], [str.replace], [str.lower], [str.join], slicing);
    - the objects of the chat platform the bot manipulates (members, roles,
      permission overwrites, channels, messages) and the platform calls it
      issues, as explicit state passing over a [World];
    - the helpers [fmt_ts], [build_ticket_overwrites], [can_manage];
    - the views [AddUserView], [RemoveUserView], [TicketPanel],
      [TicketOpenView], the [on_ready] hook and the two commands;
    - the properties of the ticket life cycle.

    Strings are sequences of [ascii] code units (a character outside ASCII
    is the sequence of its UTF-8 bytes); a Python exception is a value of
    [exn] carried by [result]. *)

From stdpp Require Import gmap strings list fin_maps.
From Stdlib Require Import ZArith DecimalString Ascii String Sorted Lia.
From Stdlib Require DecimalZ.

Local Open Scope string_scope.
Local Open Scope Z_scope.

(** ** Python built-ins *)

Module Py.

Definition newline : ascii := ascii_of_nat 10.
Definition NL : string := String newline "".

(** [bool(s)] for a string: the empty string is falsy. *)
Definition truthy (s : string) : bool :=
  match s with "" => false | _ => true end.

(** [bool(o)] for [str | None]. *)
Definition truthy_opt (o : option string) : bool :=
  match o with Some s => truthy s | None => false end.

(** [o or d] for [str | None] and a default string. *)
Definition or_else (o : option string) (d : string) : string :=
  match o with
  | Some s => if truthy s then s else d
  | None => d
  end.

(** White space, as [int] skips it: tab to carriage return, the four
    separators FS, GS, RS, US, and the space. *)
Definition is_space (c : ascii) : bool :=
  let n := nat_of_ascii c in
  ((9 <=? n) && (n <=? 13))%nat || ((28 <=? n) && (n <=? 32))%nat.

Definition is_digit (c : ascii) : bool :=
  let n := nat_of_ascii c in ((48 <=? n) && (n <=? 57))%nat.

Definition digit_val (c : ascii) : Z := Z.of_nat (nat_of_ascii c) - 48.

Fixpoint lstrip (s : string) : string :=
  match s with
  | String c s' => if is_space c then lstrip s' else s
  | "" => ""
  end.

Definition strip (s : string) : string :=
  String.rev (lstrip (String.rev (lstrip s))).

(** The digits of an integer literal: at least one digit, and single
    underscores allowed between digits only. *)
Fixpoint int_body (acc : Z) (after_digit : bool) (s : string) : option Z :=
  match s with
  | "" => if after_digit then Some acc else None
  | String c s' =>
      if is_digit c then int_body (10 * acc + digit_val c) true s'
      else if Ascii.eqb c "_" && after_digit then int_body acc false s'
      else None
  end.

(** [int(s)] in base ten: surrounding white space, an optional sign, then
    the digits. [None] stands for [ValueError]. The digits and blanks read
    are the ASCII ones ([int] also takes the other Unicode decimal digits
    and blanks, and refuses texts of more than 4300 digits). *)
Definition int (s : string) : option Z :=
  match strip s with
  | String "-" s' => Z.opp <$> int_body 0 false s'
  | String "+" s' => int_body 0 false s'
  | s' => int_body 0 false s'
  end.

(** [str(n)] for an integer. *)
Definition str_of_int (n : Z) : string :=
  NilZero.string_of_int (Z.to_int n).

(** [s.replace(c, by)] for a one-character pattern [c]. *)
Fixpoint replace (c : ascii) (by_ : string) (s : string) : string :=
  match s with
  | "" => ""
  | String d s' =>
      if Ascii.eqb d c then by_ +:+ replace c by_ s'
      else String d (replace c by_ s')
  end.

Definition lower_char (c : ascii) : ascii :=
  let n := nat_of_ascii c in
  if ((65 <=? n) && (n <=? 90))%nat then ascii_of_nat (n + 32) else c.

(** [s.lower()] for a text in ASCII: the letters [A] to [Z] are lowered,
    every other code unit is kept. (For other texts [str.lower] follows the
    Unicode case mappings, which this does not: see [ascii_only].) *)
Fixpoint lower (s : string) : string :=
  match s with
  | "" => ""
  | String c s' => String (lower_char c) (lower s')
  end.

(** [sep.join(l)]. *)
Definition join (sep : string) (l : list string) : string :=
  String.concat sep l.

(** [s[:n]]: the first [n] code units. For a text in ASCII these are its
    first [n] characters, as the slice of Python counts them. *)
Definition take (n : nat) (s : string) : string := String.substring 0 n s.

(** A text in ASCII: one code unit for each character. *)
Fixpoint ascii_only (s : string) : bool :=
  match s with
  | "" => true
  | String c s' => (nat_of_ascii c <? 128)%nat && ascii_only s'
  end.

(** A capital letter of ASCII, and a text that holds one. *)
Definition is_upper (c : ascii) : bool :=
  let n := nat_of_ascii c in ((65 <=? n) && (n <=? 90))%nat.

Fixpoint has_upper (s : string) : bool :=
  match s with
  | "" => false
  | String c s' => is_upper c || has_upper s'
  end.

(** [s.split(c)] for a one-character separator: the fields between the
    occurrences of [c]; used to read an artifact back line by line. *)
Fixpoint split (c : ascii) (s : string) : list string :=
  match s with
  | "" => [""]
  | String d s' =>
      if Ascii.eqb d c then "" :: split c s'
      else match split c s' with
           | f :: fs => String d f :: fs
           | [] => [String d ""]
           end
  end.

(** The string whose code units are the given bytes (for the literals of
    the source that are not ASCII). *)
Definition of_bytes (l : list nat) : string :=
  fold_right (fun n s => String (ascii_of_nat n) s) "" l.

Fixpoint contains (c : ascii) (s : string) : bool :=
  match s with
  | "" => false
  | String d s' => Ascii.eqb d c || contains c s'
  end.

End Py.

(** ** Exceptions and results *)

Inductive exn : Type :=
| Forbidden        (* discord.Forbidden: the bot lacks a platform permission *)
| NotFound         (* discord.NotFound: the target no longer exists *)
| ValueError       (* int() applied to a string that is no integer literal *)
| AttributeError   (* a method the object does not have *)
| AssertionError.  (* a failed assert *)

Inductive result (A : Type) : Type :=
| Ok (a : A)
| Raise (e : exn).
Arguments Ok {A} a.
Arguments Raise {A} e.

(** ** The chat platform: objects *)

(** Permission bits, with the values of [discord.Permissions]. *)
Definition manage_channels : Z := Z.shiftl 1 4.
Definition view_channel : Z := Z.shiftl 1 10.
Definition send_messages : Z := Z.shiftl 1 11.
Definition manage_messages : Z := Z.shiftl 1 13.
Definition attach_files : Z := Z.shiftl 1 15.
Definition read_message_history : Z := Z.shiftl 1 16.

(** [discord.PermissionOverwrite], as the pair of bit sets that
    [PermissionOverwrite.pair()] sends to the platform. *)
Record PermissionOverwrite : Type := mkOverwrite { allow : Z; deny : Z }.

(** [discord.PermissionOverwrite(flag=True|False, ...)]: a flag given as
    [True] is allowed, one given as [False] is denied. *)
Fixpoint overwrite_of (flags : list (Z * bool)) : PermissionOverwrite :=
  match flags with
  | [] => mkOverwrite 0 0
  | (bit, true) :: fs =>
      let o := overwrite_of fs in mkOverwrite (Z.lor bit (allow o)) (deny o)
  | (bit, false) :: fs =>
      let o := overwrite_of fs in mkOverwrite (allow o) (Z.lor bit (deny o))
  end.

Record Role : Type := mkRole { role_id : Z }.

(** [discord.Member]: [name] is the name of the account, [nick] the
    nickname in the guild and [global_name] the name chosen for display,
    when there is one. *)
Record Member : Type := mkMemberFull {
  id : Z;
  name : string;
  discriminator : string;
  roles : list Role;
  nick : option string;
  global_name : option string
}.

(** A member with neither nickname nor global name. *)
Definition mkMember (id : Z) (name discriminator : string) (roles : list Role) : Member :=
  mkMemberFull id name discriminator roles None None.


(** [str(member)]: the bare name for migrated accounts, [name#discriminator]
    for the others. *)
Definition member_str (m : Member) : string :=
  if String.eqb (discriminator m) "0" then name m
  else name m +:+ "#" +:+ discriminator m.

Definition member_mention (m : Member) : string :=
  "<@" +:+ Py.str_of_int (id m) +:+ ">".
Definition role_mention (r : Role) : string :=
  "<@&" +:+ Py.str_of_int (role_id r) +:+ ">".
Definition channel_mention (cid : Z) : string :=
  "<#" +:+ Py.str_of_int cid +:+ ">".

Record Attachment : Type := mkAttachment { url : string }.

Record Embed : Type := mkEmbed {
  title : string;
  description : string;
  timestamp : Z;
  footer : string
}.

(** A message of a channel. [created_at] is an instant, in microseconds
    since the epoch; [panel] is the opener id of the [TicketPanel] view
    attached to the message, if any. *)
Record Message : Type := mkMessage {
  author : Member;
  created_at : Z;
  content : string;
  attachments : list Attachment;
  embed : option Embed;
  panel : option Z
}.

(** The key of a permission overwrite: a role or a member. Two keys are
    equal when they are of the same class and carry the same id. *)
Definition Target : Type := (Z + Z)%type.
Definition RoleT (rid : Z) : Target := inl rid.
Definition MemberT (mid : Z) : Target := inr mid.

(** A text channel of the guild; [messages] is kept oldest first. *)
Record Channel : Type := mkChannel {
  ch_name : string;
  ch_category : option Z;
  ch_topic : option string;
  ch_overwrites : gmap Target PermissionOverwrite;
  ch_messages : list Message
}.

Record Category : Type := mkCategory { cat_id : Z; cat_name : string }.

Inductive ChannelKind : Type := TextChannel | Thread | OtherChannel.

(** [interaction.channel]: the class of the channel object and its id. *)
Record ChannelRef : Type := mkChannelRef { cr_kind : ChannelKind; cr_id : Z }.

(** [discord.Interaction]: the acting member, the channel the component or
    command was used in, and whether it was used in a guild. *)
Record Interaction : Type := mkInteraction {
  user : Member;
  channel : option ChannelRef;
  in_guild : bool
}.

Record File : Type := mkFile { filename : string; data : string }.

(** ** The views of the bot: their fields *)

Record AddUserView : Type := mkAddUserView { add_opener_id : Z }.
Record RemoveUserView : Type := mkRemoveUserView { remove_opener_id : Z }.
Record TicketPanel : Type := mkTicketPanel { opener_id : Z }.

(** [TicketOpenView]: the opener, the two selections and the [disabled]
    flag of the confirm button. *)
Record TicketOpenView : Type := mkTicketOpenView {
  opener : Member;
  reason : option string;
  priority : option string;
  confirm_disabled : bool
}.

Inductive View : Type :=
| VAddUser (v : AddUserView)
| VRemoveUser (v : RemoveUserView)
| VTicketOpen (v : TicketOpenView)
| VTicketPanel (v : TicketPanel).

(** ** The chat platform: state and calls *)

(** What a handler sends back through its interaction. *)
Inductive Output : Type :=
| SendMessage (content : string) (ephemeral : bool) (view : option View)
| EditMessage (content : string) (view : option View)
| Defer (ephemeral thinking : bool)
| FollowupSend (content : string) (file : option File) (ephemeral : bool).

(** The mutating calls the platform may refuse to the bot. *)
Inductive Op : Type :=
| OpCreateCategory | OpCreateChannel | OpDeleteChannel
| OpEditChannel | OpEditPermissions.

Record World : Type := mkWorld {
  guild_id : Z;                     (* also the id of [guild.default_role] *)
  me : Member;                      (* [guild.me] *)
  members : list Member;            (* [guild.members] *)
  guild_roles : gmap Z Role;        (* [guild.get_role] *)
  categories : list Category;       (* [guild.categories] *)
  channels : gmap Z Channel;
  denied : Op -> bool;              (* calls answered with 403 Forbidden *)
  now : Z;                          (* the clock, in microseconds *)
  outbox : list Output;             (* responses sent so far, oldest first *)
  persistent_views : list TicketPanel  (* [bot.add_view] *)
}.

Definition set_channels (f : gmap Z Channel -> gmap Z Channel) (w : World) : World :=
  mkWorld (guild_id w) (me w) (members w) (guild_roles w) (categories w)
          (f (channels w)) (denied w) (now w) (outbox w) (persistent_views w).
Definition set_categories (cs : list Category) (w : World) : World :=
  mkWorld (guild_id w) (me w) (members w) (guild_roles w) cs
          (channels w) (denied w) (now w) (outbox w) (persistent_views w).
Definition set_now (t : Z) (w : World) : World :=
  mkWorld (guild_id w) (me w) (members w) (guild_roles w) (categories w)
          (channels w) (denied w) t (outbox w) (persistent_views w).
Definition push_output (o : Output) (w : World) : World :=
  mkWorld (guild_id w) (me w) (members w) (guild_roles w) (categories w)
          (channels w) (denied w) (now w) (outbox w ++ [o]) (persistent_views w).
Definition push_view (p : TicketPanel) (w : World) : World :=
  mkWorld (guild_id w) (me w) (members w) (guild_roles w) (categories w)
          (channels w) (denied w) (now w) (outbox w) (persistent_views w ++ [p]).

(** A coroutine of the bot: it runs on the world, changes it, and returns
    or raises. What it changed before raising stays changed. *)
Definition M (A : Type) : Type := World -> result A * World.

Definition ret {A} (a : A) : M A := fun w => (Ok a, w).
Definition raise {A} (e : exn) : M A := fun w => (Raise e, w).
Definition bind {A B} (m : M A) (k : A -> M B) : M B :=
  fun w => match m w with
           | (Ok a, w') => k a w'
           | (Raise e, w') => (Raise e, w')
           end.

(** [try: m except discord.Forbidden: h]. *)
Definition try_except_Forbidden {A} (m : M A) (h : M A) : M A :=
  fun w => match m w with
           | (Raise Forbidden, w') => h w'
           | r => r
           end.

Declare Scope coro_scope.
Delimit Scope coro_scope with coro.
Notation "'let*' x ':=' m 'in' k" := (bind m (fun x => k))
  (at level 20, x name, m at level 100, k at level 200) : coro_scope.
Notation "m ';;' k" := (bind m (fun _ => k))
  (at level 100, k at level 200, right associativity) : coro_scope.
Local Open Scope coro_scope.

Definition lift {A} (r : result A) : M A := fun w => (r, w).
Definition gets {A} (f : World -> A) : M A := fun w => (Ok (f w), w).
Definition modify (f : World -> World) : M unit := fun w => (Ok tt, f w).

(** Every mutating call is refused with [Forbidden] when the platform
    denies it to the bot. *)
Definition require (op : Op) : M unit :=
  fun w => if denied w op then (Raise Forbidden, w) else (Ok tt, w).

Definition get_channel (cid : Z) : M Channel :=
  fun w => match channels w !! cid with
           | Some c => (Ok c, w)
           | None => (Raise NotFound, w)
           end.

(** [interaction.response.send_message], [edit_message], [defer] and
    [interaction.followup.send]. *)
Definition send_message (content : string) (ephemeral : bool) (view : option View) : M unit :=
  modify (push_output (SendMessage content ephemeral view)).
Definition edit_message (content : string) (view : option View) : M unit :=
  modify (push_output (EditMessage content view)).
Definition defer (ephemeral thinking : bool) : M unit :=
  modify (push_output (Defer ephemeral thinking)).
Definition followup_send (content : string) (file : option File) (ephemeral : bool) : M unit :=
  modify (push_output (FollowupSend content file ephemeral)).

(** [asyncio.sleep(seconds)] *)
Definition sleep (seconds : Z) : M unit :=
  modify (fun w => set_now (now w + seconds * 1000000) w).

Definition set_overwrites (f : gmap Target PermissionOverwrite -> gmap Target PermissionOverwrite)
    (c : Channel) : Channel :=
  mkChannel (ch_name c) (ch_category c) (ch_topic c) (f (ch_overwrites c)) (ch_messages c).
Definition set_topic (t : option string) (c : Channel) : Channel :=
  mkChannel (ch_name c) (ch_category c) t (ch_overwrites c) (ch_messages c).
Definition add_message (m : Message) (c : Channel) : Channel :=
  mkChannel (ch_name c) (ch_category c) (ch_topic c) (ch_overwrites c) (ch_messages c ++ [m]).

(** [channel.set_permissions(target, overwrite=ow)]: [Some o] writes the
    overwrite of [target], replacing the one it had; [None] deletes it. *)
Definition set_permissions (cid : Z) (target : Target) (ow : option PermissionOverwrite) : M unit :=
  let* c := get_channel cid in
  require OpEditPermissions;;
  modify (set_channels (insert cid
    (set_overwrites (match ow with
                     | Some o => insert target o
                     | None => delete target
                     end) c))).

(** [channel.delete()] *)
Definition channel_delete (cid : Z) : M unit :=
  let* _ := get_channel cid in
  require OpDeleteChannel;;
  modify (set_channels (delete cid)).

(** [channel.edit(topic=t)] *)
Definition channel_edit_topic (cid : Z) (t : string) : M unit :=
  let* c := get_channel cid in
  require OpEditChannel;;
  modify (set_channels (insert cid (set_topic (Some t) c))).

(** [channel.history(limit=None, oldest_first=True)], collected. *)
Definition history (cid : Z) : M (list Message) :=
  let* c := get_channel cid in ret (ch_messages c).

(** Ids in use in the guild, and a new one. *)
Definition used_ids (w : World) : gset Z :=
  dom (channels w) ∪ list_to_set (cat_id <$> categories w).

(** [guild.create_category(name=n)] *)
Definition create_category (n : string) : M Category :=
  require OpCreateCategory;;
  let* cid := gets (fun w => fresh (used_ids w)) in
  let cat := mkCategory cid n in
  modify (fun w => set_categories (categories w ++ [cat]) w);;
  ret cat.

(** [guild.create_text_channel(name=n, category=cat, overwrites=ows)] *)
Definition create_text_channel (n : string) (cat : Category)
    (ows : gmap Target PermissionOverwrite) : M Z :=
  require OpCreateChannel;;
  let* cid := gets (fun w => fresh (used_ids w)) in
  modify (set_channels (insert cid (mkChannel n (Some (cat_id cat)) None ows [])));;
  ret cid.

(** [channel.send(content=s, embed=e, view=TicketPanel(..))], sent by the bot. *)
Definition channel_send (cid : Z) (s : string) (e : Embed) (v : TicketPanel) : M unit :=
  let* c := get_channel cid in
  let* bot := gets me in
  let* t := gets now in
  modify (set_channels (insert cid
    (add_message (mkMessage bot t s [] (Some e) (Some (opener_id v))) c))).

(** The platform's resolution of the permissions of a member (neither the
    owner of the guild nor an administrator) in a channel, from the member's
    guild-level permissions [base]: the overwrite of the default role, then
    the overwrites of the member's other roles (denials, then grants), then
    the member's own overwrite. *)
Definition apply_overwrite (perms : Z) (o : PermissionOverwrite) : Z :=
  Z.lor (Z.land perms (Z.lnot (deny o))) (allow o).

Definition permissions_for (default_role : Z) (c : Channel) (m : Member) (base : Z) : Z :=
  let ows := ch_overwrites c in
  let p := from_option (apply_overwrite base) base (ows !! RoleT default_role) in
  let role_ows :=
    omap (fun r => if role_id r =? default_role then None
                   else ows !! RoleT (role_id r)) (roles m) in
  let allows := foldr (fun o a => Z.lor (allow o) a) 0 role_ows in
  let denies := foldr (fun o a => Z.lor (deny o) a) 0 role_ows in
  let p := Z.lor (Z.land p (Z.lnot denies)) allows in
  from_option (apply_overwrite p) p (ows !! MemberT (id m)).

Definition can_view (default_role : Z) (c : Channel) (m : Member) (base : Z) : bool :=
  Z.testbit (permissions_for default_role c m base) 10.

(** ** The bot *)

(** Preset selections. *)
Definition PRESET_REASONS : list string :=
  [ "Billing / Payment"; "Technical Issue"; "Account / Access";
    "Report a User"; "General Question" ].

Definition PRESET_PRIORITIES : list string :=
  [ "Low"; "Normal"; "High"; "Urgent" ].

(** The literals of the source that are not ASCII, byte for byte. *)
Definition DASH : string := Py.of_bytes [195; 162; 226; 130; 172; 226; 128; 157]%nat.
Definition ELLIPSIS : string := Py.of_bytes [195; 162; 226; 130; 172; 194; 166]%nat.
Definition BULLET : string := Py.of_bytes [195; 162; 226; 130; 172; 194; 162]%nat.
Definition TICKET_EMOJI : string := Py.of_bytes [195; 176; 197; 184; 197; 189; 194; 171]%nat.

(** *** Helpers *)

Definition digit (n : Z) : ascii := ascii_of_nat (48 + Z.to_nat (n mod 10)).
Definition pad2 (n : Z) : string := String (digit (n / 10)) (String (digit n) "").
Definition pad4 (n : Z) : string :=
  String (digit (n / 1000)) (String (digit (n / 100)) (pad2 n)).

(** The civil date (year, month, day) of a day number counted from
    1970-01-01, in the proleptic Gregorian calendar that [datetime] uses. *)
Definition civil_from_days (days : Z) : Z * Z * Z :=
  let z := days + 719468 in
  let era := z / 146097 in
  let doe := z - era * 146097 in
  let yoe := (doe - doe / 1460 + doe / 36524 - doe / 146096) / 365 in
  let doy := doe - (365 * yoe + yoe / 4 - yoe / 100) in
  let mp := (5 * doy + 2) / 153 in
  let d := doy - (153 * mp + 2) / 5 + 1 in
  let m := if mp <? 10 then mp + 3 else mp - 9 in
  let y := yoe + era * 400 + (if m <=? 2 then 1 else 0) in
  (y, m, d).

(** [dt.astimezone(timezone.utc).strftime("%Y-%m-%d %H:%M:%S UTC")] for an
    instant [dt] in microseconds since the epoch, of the years 1000 to 9999
    (the years that [%Y] prints with four digits; the instants of messages
    and of the clock are of this century). *)
Definition fmt_ts (dt : Z) : string :=
  let secs := dt / 1000000 in
  let '(y, m, d) := civil_from_days (secs / 86400) in
  let sod := secs mod 86400 in
  pad4 y +:+ "-" +:+ pad2 m +:+ "-" +:+ pad2 d +:+ " " +:+
  pad2 (sod / 3600) +:+ ":" +:+ pad2 (sod mod 3600 / 60) +:+ ":" +:+
  pad2 (sod mod 60) +:+ " UTC".

(** [discord.utils.get(guild.categories, name=n)], then
    [guild.create_category] when there is none. *)
Definition get_or_create_category (n : string) : M Category :=
  let* cats := gets categories in
  match List.find (fun c => String.eqb (cat_name c) n) cats with
  | Some cat => ret cat
  | None => create_category n
  end.

Definition opener_overwrite : PermissionOverwrite :=
  overwrite_of [ (view_channel, true); (send_messages, true);
                 (read_message_history, true); (attach_files, true) ].

Definition build_ticket_overwrites (default_role : Z) (bot : Member)
    (opener : Member) (staff_role : option Role)
    : gmap Target PermissionOverwrite :=
  let overwrites : gmap Target PermissionOverwrite :=
    <[ MemberT (id bot) :=
         overwrite_of [ (view_channel, true); (send_messages, true);
                        (manage_channels, true); (read_message_history, true);
                        (attach_files, true) ] ]>
    (<[ MemberT (id opener) := opener_overwrite ]>
    (<[ RoleT default_role := overwrite_of [ (view_channel, false) ] ]> ∅)) in
  match staff_role with
  | Some r =>
      <[ RoleT (role_id r) :=
           overwrite_of [ (view_channel, true); (send_messages, true);
                          (read_message_history, true); (manage_messages, true);
                          (attach_files, true) ] ]> overwrites
  | None => overwrites
  end.

Section Bot.

(** The process configuration, as [os.getenv] returns it. *)
Variable STAFF_ROLE_ID : option string.
Variable TICKET_CATEGORY_NAME : string.

(** [any(r.id == int(s) for r in roles)]: [int(s)] is evaluated once for
    every role looked at. *)
Fixpoint any_role_is (s : string) (rs : list Role) : result bool :=
  match rs with
  | [] => Ok false
  | r :: rs' =>
      match Py.int s with
      | None => Raise ValueError
      | Some n => if role_id r =? n then Ok true else any_role_is s rs'
      end
  end.

(** [STAFF_ROLE_ID and any(r.id == int(STAFF_ROLE_ID) for r in member.roles)],
    as a condition. *)
Definition staff_check (member : Member) : result bool :=
  match STAFF_ROLE_ID with
  | Some s => if Py.truthy s then any_role_is s (roles member) else Ok false
  | None => Ok false
  end.

(** User may manage if opener or has staff role. *)
Definition can_manage (interaction : Interaction) (opener_id : Z) : result bool :=
  let member := user interaction in
  if id member =? opener_id then Ok true
  else match staff_check member with
       | Ok true => Ok true
       | Ok false => Ok false
       | Raise e => Raise e
       end.

(** [isinstance(interaction.channel, discord.TextChannel)] and
    [isinstance(interaction.channel, (discord.TextChannel, discord.Thread))] *)
Definition is_text_channel (interaction : Interaction) : option Z :=
  match channel interaction with
  | Some (mkChannelRef TextChannel cid) => Some cid
  | _ => None
  end.

Definition is_text_channel_or_thread (interaction : Interaction) : option ChannelRef :=
  match channel interaction with
  | Some (mkChannelRef OtherChannel _) | None => None
  | Some c => Some c
  end.

(** [interaction.channel.set_permissions]: a method of text channels;
    threads have none. *)
Definition channel_set_permissions (c : ChannelRef) (target : Target)
    (ow : option PermissionOverwrite) : M unit :=
  match cr_kind c with
  | TextChannel => set_permissions (cr_id c) target ow
  | _ => raise AttributeError
  end.

(** [interaction.guild.get_member(uid) if interaction.guild else None] *)
Definition get_member (interaction : Interaction) (uid : Z) : M (option Member) :=
  if in_guild interaction
  then gets (fun w => List.find (fun m => id m =? uid) (members w))
  else ret None.

(** *** AddUserView and RemoveUserView *)

(** [selected] is [self.user_select.values[0]], the id of the picked user. *)
Definition AddUserView_select_user (self : AddUserView)
    (interaction : Interaction) (selected : Z) : M unit :=
  let* ok := lift (can_manage interaction (add_opener_id self)) in
  if negb ok then
    send_message "You are not allowed to manage this ticket." true None
  else
  match is_text_channel_or_thread interaction with
  | None => send_message "Invalid channel." true None
  | Some ch =>
    let* target_member := get_member interaction selected in
    match target_member with
    | None => send_message "User is not in this server." true None
    | Some target_member =>
        try_except_Forbidden
          (channel_set_permissions ch (MemberT (id target_member))
             (Some opener_overwrite);;
           send_message ("Added " +:+ member_mention target_member +:+ " to this ticket.")
             true None)
          (send_message "Missing permission to modify channel permissions." true None)
    end
  end.

Definition RemoveUserView_select_user (self : RemoveUserView)
    (interaction : Interaction) (selected : Z) : M unit :=
  let* ok := lift (can_manage interaction (remove_opener_id self)) in
  if negb ok then
    send_message "You are not allowed to manage this ticket." true None
  else
  match is_text_channel_or_thread interaction with
  | None => send_message "Invalid channel." true None
  | Some ch =>
    let* target_member := get_member interaction selected in
    match target_member with
    | None => send_message "User is not in this server." true None
    | Some target_member =>
        try_except_Forbidden
          (channel_set_permissions ch (MemberT (id target_member)) None;;
           send_message ("Removed " +:+ member_mention target_member +:+ " from this ticket.")
             true None)
          (send_message "Missing permission to modify channel permissions." true None)
    end
  end.

(** *** TicketPanel *)

Definition TicketPanel_close (self : TicketPanel) (interaction : Interaction) : M unit :=
  let* ok := lift (can_manage interaction (opener_id self)) in
  if negb ok then
    send_message "You are not allowed to close this ticket." true None
  else
    send_message ("Closing in 5 seconds" +:+ ELLIPSIS) true None;;
    sleep 5;;
    match is_text_channel interaction with
    | Some cid =>
        try_except_Forbidden
          (channel_delete cid)
          (followup_send "I lack permission to delete this channel." None true)
    | None => ret tt
    end.

(** One record of the transcript. *)
Definition transcript_line (msg : Message) : string :=
  let author := member_str (author msg) +:+ " (" +:+ Py.str_of_int (id (author msg)) +:+ ")" in
  let time_str := fmt_ts (created_at msg) in
  let content := Py.replace Py.newline "\n" (content msg) in
  let attach_info :=
    match attachments msg with
    | [] => ""
    | atts => " | Attachments: " +:+ Py.join ", " (url <$> atts)
    end in
  "[" +:+ time_str +:+ "] " +:+ author +:+ ": " +:+ content +:+ attach_info.

(** The text of the artifact for a history read oldest first. *)
Definition transcript_text (msgs : list Message) : string :=
  let lines := transcript_line <$> msgs in
  match lines with
  | [] => "No messages."
  | _ => Py.join Py.NL lines
  end.

Definition TicketPanel_transcript (self : TicketPanel) (interaction : Interaction) : M unit :=
  let* ok := lift (can_manage interaction (opener_id self)) in
  if negb ok then
    send_message "You are not allowed to get a transcript." true None
  else
  match is_text_channel interaction with
  | None => send_message "Invalid channel." true None
  | Some cid =>
      defer true true;;
      let* msgs := history cid in
      let buf := transcript_text msgs in
      let* ch := get_channel cid in
      let filename := "transcript-" +:+ ch_name ch +:+ ".txt" in
      followup_send "Here is the transcript." (Some (mkFile filename buf)) true
  end.

Definition TicketPanel_add_user (self : TicketPanel) (interaction : Interaction) : M unit :=
  let* ok := lift (can_manage interaction (opener_id self)) in
  if negb ok then
    send_message "You are not allowed to manage this ticket." true None
  else
    send_message "Select a user to add:" true
      (Some (VAddUser (mkAddUserView (opener_id self)))).

Definition TicketPanel_remove_user (self : TicketPanel) (interaction : Interaction) : M unit :=
  let* ok := lift (can_manage interaction (opener_id self)) in
  if negb ok then
    send_message "You are not allowed to manage this ticket." true None
  else
    send_message "Select a user to remove:" true
      (Some (VRemoveUser (mkRemoveUserView (opener_id self)))).

(** [interaction.channel.topic or ""] *)
Definition channel_topic (cid : Z) : M string :=
  gets (fun w => Py.or_else (channels w !! cid ≫= ch_topic) "").

Definition TicketPanel_claim (self : TicketPanel) (interaction : Interaction) : M unit :=
  let member := user interaction in
  let* staff := lift (staff_check member) in
  if negb staff then
    send_message "Only staff can claim tickets." true None
  else
  match is_text_channel interaction with
  | Some cid =>
      let* topic := channel_topic cid in
      let* t := gets now in
      let claimed_note := "Claimed by " +:+ member_str member +:+ " at " +:+ fmt_ts t in
      try_except_Forbidden
        (channel_edit_topic cid (Py.take 1024 (topic +:+ " | " +:+ claimed_note)))
        (ret tt);;
      send_message ("Ticket claimed by " +:+ member_mention member +:+ ".") false None
  | None => send_message "Invalid channel." true None
  end.

(** *** TicketOpenView *)

Definition TicketOpenView_init (opener : Member) : TicketOpenView :=
  mkTicketOpenView opener None None true.

Definition _summary_text (self : TicketOpenView) : string :=
  let r := Py.or_else (reason self) DASH in
  let p := Py.or_else (priority self) DASH in
  "**Reason:** " +:+ r +:+ Py.NL +:+ "**Priority:** " +:+ p.

(** [self.reason and self.priority], as a condition. *)
Definition both_selected (self : TicketOpenView) : bool :=
  Py.truthy_opt (reason self) && Py.truthy_opt (priority self).

Definition MENU_TEXT : string :=
  "Please choose a reason and a priority, then press **Create Ticket**." +:+ Py.NL +:+ Py.NL.

(** The callbacks of the menu return the view as they leave it. *)
Definition _refresh (self : TicketOpenView) (interaction : Interaction) : M TicketOpenView :=
  let self := mkTicketOpenView (opener self) (reason self) (priority self)
                (negb (both_selected self)) in
  edit_message (MENU_TEXT +:+ _summary_text self) (Some (VTicketOpen self));;
  ret self.

(** [value] is [self.reason_select.values[0]]. *)
Definition on_reason (self : TicketOpenView) (interaction : Interaction)
    (value : string) : M TicketOpenView :=
  let self := mkTicketOpenView (opener self) (Some value) (priority self)
                (confirm_disabled self) in
  _refresh self interaction.

(** [value] is [self.priority_select.values[0]]. *)
Definition on_priority (self : TicketOpenView) (interaction : Interaction)
    (value : string) : M TicketOpenView :=
  let self := mkTicketOpenView (opener self) (reason self) (Some value)
                (confirm_disabled self) in
  _refresh self interaction.

Definition on_cancel (self : TicketOpenView) (interaction : Interaction) : M unit :=
  edit_message "Ticket creation cancelled." None.

(** [guild.get_role(int(STAFF_ROLE_ID)) if STAFF_ROLE_ID else None] *)
Definition get_staff_role : M (option Role) :=
  match STAFF_ROLE_ID with
  | Some s =>
      if Py.truthy s then
        match Py.int s with
        | Some n => gets (fun w => guild_roles w !! n)
        | None => raise ValueError
        end
      else ret None
  | None => ret None
  end.

Definition channel_name_of (opener : Member) : string :=
  let safe_name := Py.replace " " "-" (Py.lower (name opener)) in
  "ticket-" +:+ safe_name +:+ "-" +:+
  (if negb (String.eqb (discriminator opener) "0") then discriminator opener
   else Py.str_of_int (id opener)).

(** [on_confirm] reads the view and leaves its fields as they are. *)
Definition on_confirm (self : TicketOpenView) (interaction : Interaction) : M unit :=
  if negb (both_selected self) then
    send_message "Please select both fields first." true None
  else
    (if in_guild interaction then ret tt else raise AssertionError);;
    let* staff_role := get_staff_role in
    let* category := get_or_create_category TICKET_CATEGORY_NAME in
    let channel_name := channel_name_of (opener self) in
    let* default_role := gets guild_id in
    let* bot := gets me in
    let overwrites := build_ticket_overwrites default_role bot (opener self) staff_role in
    let* ch := create_text_channel channel_name category overwrites in
    let* t := gets now in
    let embed := mkEmbed
      (TICKET_EMOJI +:+ " Ticket Created")
      ("Hello " +:+ member_mention (opener self) +:+
       "! A staff member will assist you shortly." +:+ Py.NL +:+ Py.NL +:+
       "**Reason:** " +:+ default "None" (reason self) +:+ Py.NL +:+
       "**Priority:** " +:+ default "None" (priority self) +:+ Py.NL +:+ Py.NL +:+
       "Use the buttons below to manage this ticket.")
      t
      ("Opened by " +:+ member_str (opener self) +:+ " " +:+ BULLET +:+ " ID " +:+
       Py.str_of_int (id (opener self))) in
    let view := mkTicketPanel (id (opener self)) in
    channel_send ch
      (match staff_role with Some r => role_mention r | None => "" end) embed view;;
    edit_message ("Your ticket has been created: " +:+ channel_mention ch) None.

(** *** Events and commands *)

(** [on_ready]: register the persistent view so that buttons survive
    restarts (the command synchronisation that follows is the platform's). *)
Definition on_ready : M unit :=
  modify (push_view (mkTicketPanel 0)).

(** [/ticket] *)
Definition ticket (interaction : Interaction) : M TicketOpenView :=
  (if in_guild interaction then ret tt else raise AssertionError);;
  let view := TicketOpenView_init (user interaction) in
  send_message (MENU_TEXT +:+ _summary_text view) true (Some (VTicketOpen view));;
  ret view.

(** [/close] *)
Definition close (interaction : Interaction) : M unit :=
  match is_text_channel interaction with
  | None => send_message "Use this inside a ticket channel." true None
  | Some cid =>
      let* staff := lift (staff_check (user interaction)) in
      if negb staff then
        send_message "Only staff can use this command." true None
      else
        send_message ("Closing in 5 seconds" +:+ ELLIPSIS) true None;;
        sleep 5;;
        try_except_Forbidden
          (channel_delete cid)
          (followup_send "I lack permission to delete this channel." None true)
  end.

End Bot.

(** ** Vocabulary of the properties *)

(** The configuration names the staff role [n]: [STAFF_ROLE_ID] is set, is
    not empty, and reads as the integer [n]. *)
Definition staff_role_configured (STAFF_ROLE_ID : option string) (n : Z) : Prop :=
  ∃ s, STAFF_ROLE_ID = Some s ∧ Py.truthy s = true ∧ Py.int s = Some n.

Definition holds_role (m : Member) (n : Z) : Prop :=
  ∃ r, r ∈ roles m ∧ role_id r = n.

Definition holds_staff_role (STAFF_ROLE_ID : option string) (m : Member) : Prop :=
  ∃ n, staff_role_configured STAFF_ROLE_ID n ∧ holds_role m n.

(** The configuration is usable: [STAFF_ROLE_ID] is unset, empty, or an
    integer literal. *)
Definition config_ok (STAFF_ROLE_ID : option string) : Prop :=
  ∀ s, STAFF_ROLE_ID = Some s → Py.truthy s = true → is_Some (Py.int s).

(** Both notions are decidable by evaluation. *)
Definition config_okb (STAFF_ROLE_ID : option string) : bool :=
  match STAFF_ROLE_ID with
  | Some s => negb (Py.truthy s) || bool_decide (is_Some (Py.int s))
  | None => true
  end.

Definition holds_staff_roleb (STAFF_ROLE_ID : option string) (m : Member) : bool :=
  match STAFF_ROLE_ID with
  | Some s =>
      Py.truthy s &&
      match Py.int s with
      | Some n => existsb (fun r => role_id r =? n) (roles m)
      | None => false
      end
  | None => false
  end.

(** The selections the platform delivers to the menu: one of the options
    the select was built with. *)
Inductive MenuEvent : Type :=
| SelectReason (value : string)
| SelectPriority (value : string).

Definition dispatch (self : TicketOpenView) (interaction : Interaction)
    (e : MenuEvent) : M TicketOpenView :=
  match e with
  | SelectReason v => on_reason self interaction v
  | SelectPriority v => on_priority self interaction v
  end.

Definition offered (e : MenuEvent) : Prop :=
  match e with
  | SelectReason v => v ∈ PRESET_REASONS
  | SelectPriority v => v ∈ PRESET_PRIORITIES
  end.

(** The states of a menu opened by [/ticket] for [opener]. *)
Inductive reachable (opener : Member) : TicketOpenView -> Prop :=
| reach_open : reachable opener (TicketOpenView_init opener)
| reach_select self interaction e w self' w' :
    reachable opener self ->
    offered e ->
    dispatch self interaction e w = (Ok self', w') ->
    reachable opener self'.

(** The action was turned down: the only effect is the refusal [msg],
    sent to the actor alone. *)
Definition refused (msg : string) (r : result unit * World) (w : World) : Prop :=
  r = (Ok tt, push_output (SendMessage msg true None) w).

(** What [claim] does for a holder of the staff role in a text channel: it
    tries to append its note to the topic, and announces the claim to the
    channel whether or not the platform accepted the edit. *)
Definition claim_note (i : Interaction) (c : Channel) (w : World) : string :=
  Py.take 1024
    (Py.or_else (ch_topic c) "" +:+ " | " +:+
     ("Claimed by " +:+ member_str (user i) +:+ " at " +:+ fmt_ts (now w))).

Definition claim_announcement (i : Interaction) : Output :=
  SendMessage ("Ticket claimed by " +:+ member_mention (user i) +:+ ".") false None.

(** The platform lets the bot open a ticket channel: it may create the
    channel, and the category too when there is none of the configured name. *)
Definition may_open_ticket (TICKET_CATEGORY_NAME : string) (w : World) : Prop :=
  denied w OpCreateChannel = false ∧
  (is_Some (List.find (fun c => String.eqb (cat_name c) TICKET_CATEGORY_NAME) (categories w))
   ∨ denied w OpCreateCategory = false).

(** The channel name as the specification words it, character by
    character, for a name in ASCII: a space becomes a hyphen, a capital
    letter becomes the small letter 32 places further, every other
    character is kept. *)
Definition spec_name_char (c : ascii) : ascii :=
  if Ascii.eqb c " " then "-"%char
  else if ((65 <=? nat_of_ascii c) && (nat_of_ascii c <=? 90))%nat
       then ascii_of_nat (nat_of_ascii c + 32)
       else c.

Fixpoint spec_safe_name (s : string) : string :=
  match s with
  | "" => ""
  | String c s' => String (spec_name_char c) (spec_safe_name s')
  end.

Definition spec_suffix (m : Member) : string :=
  if String.eqb (discriminator m) "0" then Py.str_of_int (id m) else discriminator m.

(** A message whose author name and attachment URLs hold no line break. *)
Definition single_line_fields (m : Message) : Prop :=
  Py.contains Py.newline (name (author m)) = false ∧
  Py.contains Py.newline (discriminator (author m)) = false ∧
  ∀ a, a ∈ attachments m → Py.contains Py.newline (url a) = false.

(** A small guild used to instantiate the properties: the bot, an opener
    without the staff role, a staff member, an outsider, and one ticket
    channel opened by [ann]. *)
Module Scenario.
Definition STAFF : option string := Some "900".
Definition bot : Member := mkMember 2 "ticketbot" "0" [mkRole 1].
Definition ann : Member := mkMember 7 "Ann Lee" "0" [mkRole 1].
Definition eve : Member := mkMember 8 "eve" "4321" [mkRole 1].
Definition sam : Member := mkMember 9 "sam" "0" [mkRole 1; mkRole 900].
Definition ticket_channel : Channel :=
  mkChannel "ticket-ann-lee-7" (Some 40) (Some "billing")
    (build_ticket_overwrites 1 bot ann (Some (mkRole 900))) [].
Definition guild (denied : Op -> bool) : World :=
  mkWorld 1 bot [bot; ann; eve; sam] {[ 900 := mkRole 900 ]}
    [mkCategory 40 "Tickets"] {[ 50 := ticket_channel ]}
    denied 1700000000000000 [] [].
Definition permissive : Op -> bool := fun _ => false.
Definition deny (op : Op) : Op -> bool :=
  fun o => match op, o with
           | OpCreateCategory, OpCreateCategory
           | OpCreateChannel, OpCreateChannel
           | OpDeleteChannel, OpDeleteChannel
           | OpEditChannel, OpEditChannel
           | OpEditPermissions, OpEditPermissions => true
           | _, _ => false
           end.
Definition in_ticket (m : Member) : Interaction :=
  mkInteraction m (Some (mkChannelRef TextChannel 50)) true.
(** The same guild after two messages in the ticket channel. *)
Definition first_message : Message :=
  mkMessage ann 1700000000000000 ("hello" +:+ Py.NL +:+ "there")
    [mkAttachment "https://cdn.example/a.png"; mkAttachment "https://cdn.example/b.png"]
    None None.
Definition second_message : Message :=
  mkMessage eve 1700000060000000 "on it" [] None None.
Definition busy_channel : Channel :=
  mkChannel "ticket-ann-lee-7" (Some 40) (Some "billing")
    (build_ticket_overwrites 1 bot ann (Some (mkRole 900)))
    [first_message; second_message].
Definition busy_guild : World :=
  mkWorld 1 bot [bot; ann; eve; sam] {[ 900 := mkRole 900 ]}
    [mkCategory 40 "Tickets"] {[ 50 := busy_channel ]}
    permissive 1700000100000000 [] [].
(** The menu of [ann], with one and with both fields selected. *)
Definition menu_reason : TicketOpenView :=
  mkTicketOpenView ann (Some "Technical Issue") None true.
Definition menu_filled : TicketOpenView :=
  mkTicketOpenView ann (Some "Technical Issue") (Some "High") false.
End Scenario.


(** Unfolding of the coroutine combinators. *)
Ltac run_coro :=
  unfold bind, lift, ret, raise, gets, modify, require, try_except_Forbidden,
    send_message, edit_message, defer, followup_send, sleep, get_channel in *.

(** The same, with the world setters unfolded. *)
Ltac run_world :=
  run_coro;
  unfold push_output, push_view, set_channels, set_categories, set_now in *;
  simpl in *.

(** The whole dialogue that opens a ticket: [/ticket], the selection of a
    reason [r] and of a priority [p], then the confirm button. *)
Definition open_ticket_flow (STAFF_ROLE_ID : option string)
    (TICKET_CATEGORY_NAME : string) (i : Interaction) (r p : string) : M unit :=
  let* v := ticket i in
  let* v := on_reason v i r in
  let* v := on_priority v i p in
  on_confirm STAFF_ROLE_ID TICKET_CATEGORY_NAME v i.

(** The acknowledgement of [close] and [/close], and the world after it
    and the five seconds of grace. *)
Definition closing_message : Output :=
  SendMessage ("Closing in 5 seconds" +:+ ELLIPSIS) true None.

Definition after_grace (w : World) : World :=
  set_now (now w + 5 * 1000000) (push_output closing_message w).

(** The note that [claim] appends for the actor of [i] at the time of [w]. *)
Definition claimed_note (i : Interaction) (w : World) : string :=
  "Claimed by " +:+ member_str (user i) +:+ " at " +:+ fmt_ts (now w).

(** A topic that uses the 1024 characters the platform allows, and a guild
    with a ticket channel that has it. *)
Definition full_topic : string := Py.of_bytes (List.repeat 120%nat 1024).
Definition full_channel : Channel :=
  mkChannel "ticket-ann-lee-7" None (Some full_topic) ∅ [].
Definition full_guild : World :=
  mkWorld 1 Scenario.bot [Scenario.sam] ∅ [] {[ 50 := full_channel ]}
    Scenario.permissive 0 [] [].

(** The overwrites that [build_ticket_overwrites] gives to the default
    role, the bot and the staff role. *)
Definition default_overwrite : PermissionOverwrite :=
  overwrite_of [ (view_channel, false) ].
Definition bot_overwrite : PermissionOverwrite :=
  overwrite_of [ (view_channel, true); (send_messages, true);
                 (manage_channels, true); (read_message_history, true);
                 (attach_files, true) ].
Definition staff_overwrite : PermissionOverwrite :=
  overwrite_of [ (view_channel, true); (send_messages, true);
                 (read_message_history, true); (manage_messages, true);
                 (attach_files, true) ].

(** A text made of decimal digits only. *)
Fixpoint all_digits (s : string) : bool :=
  match s with
  | "" => true
  | String c s' => Py.is_digit c && all_digits s'
  end.

(** Whether a member sees a channel: the owner of the guild and the
    administrators (bit 3 of the guild-level permissions) see every
    channel, the others what [permissions_for] resolves. *)
Definition member_can_view (owner default_role : Z) (c : Channel) (m : Member)
    (base : Z) : bool :=
  (id m =? owner) || Z.testbit base 3 || can_view default_role c m base.

(** The instants, in microseconds, of the years 1000 to 9999. *)
Definition year_1000 : Z := -30610224000 * 1000000.
Definition year_10000 : Z := 253402300800 * 1000000.

(** The embed that [on_confirm] posts for [self] at time [t]. *)
Definition ticket_embed (self : TicketOpenView) (t : Z) : Embed :=
  mkEmbed
    (TICKET_EMOJI +:+ " Ticket Created")
    ("Hello " +:+ member_mention (opener self) +:+
     "! A staff member will assist you shortly." +:+ Py.NL +:+ Py.NL +:+
     "**Reason:** " +:+ default "None" (reason self) +:+ Py.NL +:+
     "**Priority:** " +:+ default "None" (priority self) +:+ Py.NL +:+ Py.NL +:+
     "Use the buttons below to manage this ticket.")
    t
    ("Opened by " +:+ member_str (opener self) +:+ " " +:+ BULLET +:+ " ID " +:+
     Py.str_of_int (id (opener self))).

(** [msg] with its content replaced. *)
Definition with_content (s : string) (msg : Message) : Message :=
  mkMessage (author msg) (created_at msg) s (attachments msg) (embed msg) (panel msg).

(** * Properties *)

(** ** Access policy *)

Lemma any_role_is_spec s n rs :
  Py.int s = Some n →
  ∃ b, any_role_is s rs = Ok b ∧ (b = true ↔ ∃ r, r ∈ rs ∧ role_id r = n).
Proof.
  intros Hint. induction rs as [|r rs IH]; simpl.
  - exists false. split; [done|]. split; [done|]. intros (r & Hr & _). inversion Hr.
  - rewrite Hint. destruct (role_id r =? n) eqn:E.
    + exists true. split; [done|]. split; [|done]. intros _.
      exists r. split; [left|]. by apply Z.eqb_eq.
    + destruct IH as (b & Hb & Hiff). exists b. split; [done|].
      rewrite Hiff. split.
      * intros (r' & Hr' & Heq). exists r'. split; [by right|done].
      * intros (r' & Hr' & Heq). apply elem_of_cons in Hr' as [->|Hr'].
        -- apply Z.eqb_neq in E. done.
        -- by exists r'.
Qed.

Lemma staff_check_spec STAFF_ROLE_ID m :
  config_ok STAFF_ROLE_ID →
  ∃ b, staff_check STAFF_ROLE_ID m = Ok b ∧
       (b = true ↔ holds_staff_role STAFF_ROLE_ID m).
Proof.
  intros Hok. unfold staff_check, holds_staff_role, staff_role_configured.
  destruct STAFF_ROLE_ID as [s|].
  - destruct (Py.truthy s) eqn:Ht.
    + destruct (Hok s eq_refl Ht) as [n Hn].
      destruct (any_role_is_spec s n (roles m) Hn) as (b & Hb & Hiff).
      exists b. split; [done|]. rewrite Hiff. split.
      * intros Hr. exists n. split; [by exists s|done].
      * intros (n' & (s' & Hs' & _ & Hn') & Hr). by simplify_eq.
    + exists false. split; [done|]. split; [done|].
      intros (n & (s' & Hs' & Ht' & _) & _). simplify_eq. congruence.
  - exists false. split; [done|]. split; [done|].
    by intros (n & (s' & Hs' & _) & _).
Qed.

Lemma staff_check_holds STAFF_ROLE_ID m :
  holds_staff_role STAFF_ROLE_ID m → staff_check STAFF_ROLE_ID m = Ok true.
Proof.
  intros (n & (s & -> & Ht & Hn) & Hr). unfold staff_check. rewrite Ht.
  destruct (any_role_is_spec s n (roles m) Hn) as (b & Hb & Hiff).
  rewrite Hb. f_equal. by apply Hiff.
Qed.

Lemma staff_check_not STAFF_ROLE_ID m :
  config_ok STAFF_ROLE_ID → ¬ holds_staff_role STAFF_ROLE_ID m →
  staff_check STAFF_ROLE_ID m = Ok false.
Proof.
  intros Hok Hn. destruct (staff_check_spec STAFF_ROLE_ID m Hok) as (b & Hb & Hiff).
  rewrite Hb. destruct b; [|done]. exfalso. by apply Hn, Hiff.
Qed.

Lemma can_manage_opener STAFF_ROLE_ID i o :
  id (user i) = o → can_manage STAFF_ROLE_ID i o = Ok true.
Proof. intros <-. unfold can_manage. by rewrite Z.eqb_refl. Qed.

Lemma can_manage_other STAFF_ROLE_ID i o :
  id (user i) ≠ o → can_manage STAFF_ROLE_ID i o = staff_check STAFF_ROLE_ID (user i).
Proof.
  intros Hne. unfold can_manage. apply Z.eqb_neq in Hne. rewrite Hne.
  by destruct (staff_check _ _) as [[]|].
Qed.

Lemma staff_check_true_iff STAFF_ROLE_ID m :
  staff_check STAFF_ROLE_ID m = Ok true ↔ holds_staff_role STAFF_ROLE_ID m.
Proof.
  split; [|apply staff_check_holds].
  unfold staff_check, holds_staff_role, staff_role_configured.
  destruct STAFF_ROLE_ID as [s|]; [|done].
  destruct (Py.truthy s) eqn:Ht; [|done].
  destruct (Py.int s) as [n|] eqn:Hn.
  - destruct (any_role_is_spec s n (roles m) Hn) as (b & Hb & Hiff).
    rewrite Hb. intros [= ->]. exists n. split; [by exists s|]. by apply Hiff.
  - destruct (roles m); simpl; by rewrite ?Hn.
Qed.

(** C1. For every actor and every opener id, [can_manage] returns [True]
    exactly when the actor's id is the opener id, or the staff role is
    configured and the actor holds a role with that id; in every other case
    it returns [False] (the configured value being an integer literal). *)
Theorem can_manage_iff STAFF_ROLE_ID (a : Interaction) (o : Z) :
  (can_manage STAFF_ROLE_ID a o = Ok true ↔
   id (user a) = o ∨ holds_staff_role STAFF_ROLE_ID (user a)) ∧
  (config_ok STAFF_ROLE_ID →
   ¬ (id (user a) = o ∨ holds_staff_role STAFF_ROLE_ID (user a)) →
   can_manage STAFF_ROLE_ID a o = Ok false).
Proof.
  destruct (decide (id (user a) = o)) as [Heq|Hne].
  - rewrite (can_manage_opener _ _ _ Heq). split.
    + split; [by left|done].
    + intros _ Hn. exfalso. apply Hn. by left.
  - rewrite (can_manage_other _ _ _ Hne), staff_check_true_iff. split.
    + split; [auto|]. by intros [?|?].
    + intros Hok Hn. apply staff_check_not; [done|]. intros ?. apply Hn. by right.
Qed.

Lemma config_okb_ok STAFF_ROLE_ID :
  config_okb STAFF_ROLE_ID = true → config_ok STAFF_ROLE_ID.
Proof.
  intros H s -> Ht. simpl in H. rewrite Ht in H. simpl in H.
  by apply bool_decide_eq_true in H.
Qed.

Lemma holds_staff_roleb_spec STAFF_ROLE_ID m :
  holds_staff_roleb STAFF_ROLE_ID m = true ↔ holds_staff_role STAFF_ROLE_ID m.
Proof.
  unfold holds_staff_roleb, holds_staff_role, staff_role_configured, holds_role.
  split.
  - destruct STAFF_ROLE_ID as [s|]; [|done].
    intros [Ht H]%andb_true_iff. destruct (Py.int s) as [n|] eqn:Hn; [|done].
    apply existsb_exists in H as (r & Hr & Heq).
    exists n. split; [by exists s|]. exists r. split.
    + by apply list_elem_of_In.
    + by apply Z.eqb_eq.
  - intros (n & (s & -> & Ht & Hn) & (r & Hr & Heq)). rewrite Ht, Hn. simpl.
    apply existsb_exists. exists r. split.
    + by apply list_elem_of_In.
    + by apply Z.eqb_eq.
Qed.

Lemma holds_staff_roleb_false STAFF_ROLE_ID m :
  holds_staff_roleb STAFF_ROLE_ID m = false → ¬ holds_staff_role STAFF_ROLE_ID m.
Proof. intros H Hh. apply holds_staff_roleb_spec in Hh. congruence. Qed.

Lemma can_manage_iff_witness :
  can_manage Scenario.STAFF (Scenario.in_ticket Scenario.eve) 7 = Ok false.
Proof.
  apply (can_manage_iff Scenario.STAFF (Scenario.in_ticket Scenario.eve) 7).
  - by apply config_okb_ok.
  - intros [Hid|Hs]; [simpl in Hid; lia|].
    revert Hs. by apply holds_staff_roleb_false.
Defined.

(** ** The action panel *)

(** C7. [close] pressed by an actor who is neither the opener nor a holder
    of the staff role is refused with a message to the actor alone; the
    channel is not deleted and nothing else of the world changes. *)
Theorem close_refused STAFF_ROLE_ID (self : TicketPanel) (i : Interaction) (w : World) :
  config_ok STAFF_ROLE_ID →
  id (user i) ≠ opener_id self →
  ¬ holds_staff_role STAFF_ROLE_ID (user i) →
  refused "You are not allowed to close this ticket."
    (TicketPanel_close STAFF_ROLE_ID self i w) w ∧
  channels (TicketPanel_close STAFF_ROLE_ID self i w).2 = channels w.
Proof.
  intros Hok Hne Hns.
  assert (TicketPanel_close STAFF_ROLE_ID self i w =
          (Ok tt, push_output
             (SendMessage "You are not allowed to close this ticket." true None) w)) as E.
  { unfold TicketPanel_close. run_coro.
    rewrite (can_manage_other _ _ _ Hne), (staff_check_not _ _ Hok Hns). reflexivity. }
  split; [exact E|]. by rewrite E.
Qed.

Lemma close_refused_witness :
  channels (TicketPanel_close Scenario.STAFF (mkTicketPanel 7)
              (Scenario.in_ticket Scenario.eve)
              (Scenario.guild Scenario.permissive)).2 !! 50
  = Some Scenario.ticket_channel.
Proof.
  assert (config_ok Scenario.STAFF) as Hok by (by apply config_okb_ok).
  assert (id (user (Scenario.in_ticket Scenario.eve)) ≠ opener_id (mkTicketPanel 7))
    as Hne by (simpl; lia).
  assert (¬ holds_staff_role Scenario.STAFF (user (Scenario.in_ticket Scenario.eve)))
    as Hns by (by apply holds_staff_roleb_false).
  destruct (close_refused Scenario.STAFF (mkTicketPanel 7)
              (Scenario.in_ticket Scenario.eve)
              (Scenario.guild Scenario.permissive) Hok Hne Hns) as [_ ->].
  reflexivity.
Defined.

(** C8. [on_ready] registers one more persistent panel, bound to the
    opener id 0, and a restarted process has no other. For every actor whose
    id is not 0 the identity test of [can_manage] then fails, and the panel
    authorizes the actor exactly when the staff role is configured and the
    actor holds it; any other such actor, the true opener included, is
    turned down. *)
Theorem restored_panel_staff_only STAFF_ROLE_ID (w : World) (a : Interaction) :
  id (user a) ≠ 0 →
  ∃ self,
    on_ready w = (Ok tt, push_view self w) ∧
    persistent_views (on_ready w).2 = (persistent_views w ++ [self])%list ∧
    (persistent_views w = [] → ∀ p, p ∈ persistent_views (on_ready w).2 → p = self) ∧
    opener_id self = 0 ∧
    (id (user a) =? opener_id self) = false ∧
    (can_manage STAFF_ROLE_ID a (opener_id self) = Ok true ↔
     holds_staff_role STAFF_ROLE_ID (user a)) ∧
    (config_ok STAFF_ROLE_ID → ¬ holds_staff_role STAFF_ROLE_ID (user a) →
     can_manage STAFF_ROLE_ID a (opener_id self) = Ok false).
Proof.
  intros Hne. exists (mkTicketPanel 0).
  split; [reflexivity|]. split; [reflexivity|]. split.
  { intros Hempty p Hin. unfold on_ready, modify, push_view in Hin. simpl in Hin.
    rewrite Hempty in Hin. by apply list_elem_of_singleton in Hin. }
  simpl. split; [done|]. split; [by apply Z.eqb_neq|].
  rewrite (can_manage_other STAFF_ROLE_ID a 0 Hne).
  split; [apply staff_check_true_iff|]. intros Hok Hn. by apply staff_check_not.
Qed.

Lemma restored_panel_staff_only_witness :
  persistent_views (on_ready (Scenario.guild Scenario.permissive)).2 = [mkTicketPanel 0] ∧
  can_manage Scenario.STAFF (Scenario.in_ticket Scenario.ann) 0 = Ok false.
Proof.
  destruct (restored_panel_staff_only Scenario.STAFF (Scenario.guild Scenario.permissive)
              (Scenario.in_ticket Scenario.ann))
    as (self & Hreg & Hviews & _ & Hzero & _ & _ & Hno).
  { simpl. lia. }
  destruct self as [o]. simpl in Hzero. subst o. split; [exact Hviews|].
  apply Hno.
  - by apply config_okb_ok.
  - by apply holds_staff_roleb_false.
Defined.

Lemma claim_by_staff STAFF_ROLE_ID self i w cid c :
  holds_staff_role STAFF_ROLE_ID (user i) →
  channel i = Some (mkChannelRef TextChannel cid) →
  channels w !! cid = Some c →
  TicketPanel_claim STAFF_ROLE_ID self i w =
    (Ok tt,
     push_output (claim_announcement i)
       (if denied w OpEditChannel then w
        else set_channels (insert cid (set_topic (Some (claim_note i c w)) c)) w)).
Proof.
  intros Hs Hch Hc. unfold TicketPanel_claim, channel_topic, channel_edit_topic,
    is_text_channel, claim_note, claim_announcement.
  run_coro. rewrite (staff_check_holds _ _ Hs), Hch. simpl. rewrite Hc. simpl.
  by destruct (denied w OpEditChannel).
Qed.

Lemma push_output_inj o1 o2 w : push_output o1 w = push_output o2 w → o1 = o2.
Proof.
  intros H. apply (f_equal outbox) in H. simpl in H.
  apply app_inv_head in H. by injection H.
Qed.

Lemma claim_not_staff STAFF_ROLE_ID self i w :
  config_ok STAFF_ROLE_ID →
  ¬ holds_staff_role STAFF_ROLE_ID (user i) →
  refused "Only staff can claim tickets." (TicketPanel_claim STAFF_ROLE_ID self i w) w.
Proof.
  intros Hok Hns. unfold refused, TicketPanel_claim. run_coro.
  by rewrite (staff_check_not _ _ Hok Hns).
Qed.

Lemma claim_staff_not_refused STAFF_ROLE_ID self i w :
  holds_staff_role STAFF_ROLE_ID (user i) →
  ¬ refused "Only staff can claim tickets." (TicketPanel_claim STAFF_ROLE_ID self i w) w.
Proof.
  intros Hs. unfold refused.
  destruct (channel i) as [[[] cid]|] eqn:Hch.
  - destruct (channels w !! cid) as [c|] eqn:Hc.
    + rewrite (claim_by_staff _ self i w cid c Hs Hch Hc).
      intros H. apply (f_equal (fun r => outbox r.2)) in H. revert H.
      destruct (denied w OpEditChannel); simpl; intros H;
        apply app_inv_head in H; discriminate H.
    + unfold TicketPanel_claim, channel_topic, channel_edit_topic, is_text_channel.
      run_coro. rewrite (staff_check_holds _ _ Hs), Hch. simpl. rewrite Hc. simpl.
      discriminate.
  - unfold TicketPanel_claim, is_text_channel. run_coro.
    rewrite (staff_check_holds _ _ Hs), Hch. simpl.
    intros H. apply (f_equal snd) in H. apply push_output_inj in H. discriminate H.
  - unfold TicketPanel_claim, is_text_channel. run_coro.
    rewrite (staff_check_holds _ _ Hs), Hch. simpl.
    intros H. apply (f_equal snd) in H. apply push_output_inj in H. discriminate H.
  - unfold TicketPanel_claim, is_text_channel. run_coro.
    rewrite (staff_check_holds _ _ Hs), Hch. simpl.
    intros H. apply (f_equal snd) in H. apply push_output_inj in H. discriminate H.
Qed.

(** C6, as the code has it. [claim] is permitted exactly to the holders of
    the configured staff role: every actor who does not hold it, the opener
    included, is refused; an actor who holds it is not refused, whether or
    not that actor is the opener of the ticket, and in a text channel the
    claim is announced. *)
Theorem claim_staff_only STAFF_ROLE_ID (self : TicketPanel) (i : Interaction) (w : World) :
  (config_ok STAFF_ROLE_ID → ¬ holds_staff_role STAFF_ROLE_ID (user i) →
   refused "Only staff can claim tickets." (TicketPanel_claim STAFF_ROLE_ID self i w) w) ∧
  (holds_staff_role STAFF_ROLE_ID (user i) →
   ¬ refused "Only staff can claim tickets." (TicketPanel_claim STAFF_ROLE_ID self i w) w ∧
   ∀ cid c,
     channel i = Some (mkChannelRef TextChannel cid) →
     channels w !! cid = Some c →
     (TicketPanel_claim STAFF_ROLE_ID self i w).1 = Ok tt ∧
     outbox (TicketPanel_claim STAFF_ROLE_ID self i w).2
       = (outbox w ++ [claim_announcement i])%list).
Proof.
  split.
  - apply claim_not_staff.
  - intros Hs. split; [by apply claim_staff_not_refused|].
    intros cid c Hch Hc. rewrite (claim_by_staff _ self i w cid c Hs Hch Hc).
    by destruct (denied w OpEditChannel).
Qed.

Lemma claim_staff_only_witness :
  refused "Only staff can claim tickets."
    (TicketPanel_claim Scenario.STAFF (mkTicketPanel 7)
       (Scenario.in_ticket Scenario.ann) (Scenario.guild Scenario.permissive))
    (Scenario.guild Scenario.permissive).
Proof.
  apply (claim_staff_only Scenario.STAFF (mkTicketPanel 7)
           (Scenario.in_ticket Scenario.ann) (Scenario.guild Scenario.permissive)).
  - by apply config_okb_ok.
  - by apply holds_staff_roleb_false.
Defined.

(** C6 as stated fails: an opener who holds the staff role claims their own
    ticket, and the claim is announced instead of being refused. *)
Lemma claim_by_staff_opener_not_refused :
  id (user (Scenario.in_ticket Scenario.sam)) = opener_id (mkTicketPanel 9) ∧
  holds_staff_role Scenario.STAFF (user (Scenario.in_ticket Scenario.sam)) ∧
  ¬ refused "Only staff can claim tickets."
      (TicketPanel_claim Scenario.STAFF (mkTicketPanel 9)
         (Scenario.in_ticket Scenario.sam) (Scenario.guild Scenario.permissive))
      (Scenario.guild Scenario.permissive) ∧
  outbox (TicketPanel_claim Scenario.STAFF (mkTicketPanel 9)
            (Scenario.in_ticket Scenario.sam) (Scenario.guild Scenario.permissive)).2 =
    [SendMessage "Ticket claimed by <@9>." false None].
Proof.
  assert (holds_staff_role Scenario.STAFF (user (Scenario.in_ticket Scenario.sam))) as Hs
    by (by apply holds_staff_roleb_spec).
  split; [reflexivity|]. split; [exact Hs|]. split.
  - by apply claim_staff_not_refused.
  - by vm_compute.
Qed.

(** C10. When the platform refuses the topic edit of [claim] with
    [Forbidden], nothing is reported to the actor: the only effect of the
    handler is the public announcement of the claim, and the topic keeps
    the text it had. *)
Theorem claim_announced_without_note STAFF_ROLE_ID (self : TicketPanel)
    (i : Interaction) (w : World) (cid : Z) (c : Channel) :
  holds_staff_role STAFF_ROLE_ID (user i) →
  channel i = Some (mkChannelRef TextChannel cid) →
  channels w !! cid = Some c →
  denied w OpEditChannel = true →
  channel_edit_topic cid (claim_note i c w) w = (Raise Forbidden, w) ∧
  TicketPanel_claim STAFF_ROLE_ID self i w =
    (Ok tt, push_output (claim_announcement i) w) ∧
  (ch_topic <$> channels (TicketPanel_claim STAFF_ROLE_ID self i w).2 !! cid)
    = Some (ch_topic c).
Proof.
  intros Hs Hch Hc Hd.
  assert (TicketPanel_claim STAFF_ROLE_ID self i w =
          (Ok tt, push_output (claim_announcement i) w)) as E.
  { rewrite (claim_by_staff _ self i w cid c Hs Hch Hc). by rewrite Hd. }
  split; [|split; [exact E|]].
  - unfold channel_edit_topic. run_coro. by rewrite Hc, Hd.
  - rewrite E. simpl. by rewrite Hc.
Qed.

Lemma claim_announced_without_note_witness :
  outbox (TicketPanel_claim Scenario.STAFF (mkTicketPanel 7)
            (Scenario.in_ticket Scenario.sam)
            (Scenario.guild (Scenario.deny OpEditChannel))).2
    = [SendMessage "Ticket claimed by <@9>." false None] ∧
  (ch_topic <$> channels (TicketPanel_claim Scenario.STAFF (mkTicketPanel 7)
                            (Scenario.in_ticket Scenario.sam)
                            (Scenario.guild (Scenario.deny OpEditChannel))).2 !! 50)
    = Some (Some "billing").
Proof.
  assert (holds_staff_role Scenario.STAFF (user (Scenario.in_ticket Scenario.sam))) as Hs
    by (by apply holds_staff_roleb_spec).
  destruct (claim_announced_without_note Scenario.STAFF (mkTicketPanel 7)
              (Scenario.in_ticket Scenario.sam)
              (Scenario.guild (Scenario.deny OpEditChannel)) 50 Scenario.ticket_channel
              Hs eq_refl eq_refl eq_refl) as (_ & E & Ht).
  split.
  - rewrite E. reflexivity.
  - exact Ht.
Defined.

(** ** The ticket menu *)

Lemma fresh_channel_id w : channels w !! fresh (used_ids w) = None.
Proof.
  apply not_elem_of_dom. intros Hin.
  apply (is_fresh (used_ids w)). unfold used_ids. set_solver.
Qed.

Lemma get_staff_role_ok STAFF_ROLE_ID w :
  config_ok STAFF_ROLE_ID → ∃ r, get_staff_role STAFF_ROLE_ID w = (Ok r, w).
Proof.
  intros Hok. unfold get_staff_role. destruct STAFF_ROLE_ID as [s|]; [|by eexists].
  destruct (Py.truthy s) eqn:Ht; [|by eexists].
  destruct (Hok s eq_refl Ht) as [n ->]. by eexists.
Qed.

Lemma get_or_create_category_ok n w :
  is_Some (List.find (fun c => String.eqb (cat_name c) n) (categories w))
  ∨ denied w OpCreateCategory = false →
  ∃ cat w1, get_or_create_category n w = (Ok cat, w1) ∧
            channels w1 = channels w ∧ denied w1 = denied w ∧
            outbox w1 = outbox w ∧ guild_id w1 = guild_id w ∧ me w1 = me w ∧
            now w1 = now w.
Proof.
  intros H. unfold get_or_create_category, create_category. run_coro. simpl.
  destruct (List.find _ (categories w)) as [cat|] eqn:Hf.
  - by exists cat, w.
  - destruct H as [[? ?]|Hd]; [done|]. rewrite Hd. simpl. by eexists _, _.
Qed.

(** What a confirmed menu does when the platform lets the bot open the
    ticket: one channel is added to the guild, under a new id. *)
Lemma on_confirm_opens STAFF_ROLE_ID TICKET_CATEGORY_NAME self i w :
  both_selected self = true →
  in_guild i = true →
  config_ok STAFF_ROLE_ID →
  may_open_ticket TICKET_CATEGORY_NAME w →
  ∃ cid ch w',
    on_confirm STAFF_ROLE_ID TICKET_CATEGORY_NAME self i w = (Ok tt, w') ∧
    channels w !! cid = None ∧
    channels w' = <[cid := ch]> (channels w) ∧
    ch_name ch = channel_name_of (opener self) ∧
    (∃ m, ch_messages ch = [m] ∧ panel m = Some (id (opener self))) ∧
    outbox w' = (outbox w ++
      [EditMessage ("Your ticket has been created: " +:+ channel_mention cid) None])%list.
Proof.
  intros Hb Hg Hok [Hcc Hcat].
  destruct (get_staff_role_ok STAFF_ROLE_ID w Hok) as [sr Hsr].
  destruct (get_or_create_category_ok TICKET_CATEGORY_NAME w Hcat)
    as (cat & w1 & Hgc & Hch1 & Hd1 & Ho1 & Hg1 & Hm1 & Hn1).
  unfold on_confirm. rewrite Hb, Hg. simpl.
  unfold bind at 1. unfold ret at 1.
  unfold bind at 1. rewrite Hsr.
  unfold bind at 1. rewrite Hgc.
  unfold create_text_channel, channel_send. run_coro. simpl.
  rewrite Hd1, Hcc. simpl. rewrite lookup_insert_eq. simpl.
  eexists (fresh (used_ids w1)), _, _. split; [reflexivity|]. simpl.
  split; [rewrite <- Hch1; apply fresh_channel_id|].
  split; [by rewrite insert_insert_eq, Hch1|].
  split; [reflexivity|]. split; [by eexists|].
  by rewrite Ho1.
Qed.

(** The same menu when the platform refuses the creation of the channel:
    [Forbidden] leaves [on_confirm], and nothing was sent to the user. *)
Lemma on_confirm_forbidden STAFF_ROLE_ID TICKET_CATEGORY_NAME self i w :
  both_selected self = true →
  in_guild i = true →
  config_ok STAFF_ROLE_ID →
  is_Some (List.find (fun c => String.eqb (cat_name c) TICKET_CATEGORY_NAME) (categories w)) →
  denied w OpCreateChannel = true →
  on_confirm STAFF_ROLE_ID TICKET_CATEGORY_NAME self i w = (Raise Forbidden, w).
Proof.
  intros Hb Hg Hok [cat Hcat] Hd.
  destruct (get_staff_role_ok STAFF_ROLE_ID w Hok) as [sr Hsr].
  unfold on_confirm. rewrite Hb, Hg. simpl.
  unfold bind at 1. unfold ret at 1.
  unfold bind at 1. rewrite Hsr.
  unfold get_or_create_category, create_text_channel. run_coro. simpl.
  rewrite Hcat. simpl. by rewrite Hd.
Qed.

Lemma preset_reason_truthy v : v ∈ PRESET_REASONS → Py.truthy v = true.
Proof.
  unfold PRESET_REASONS. rewrite !elem_of_cons, elem_of_nil.
  intros [->|[->|[->|[->|[->|[]]]]]]; reflexivity.
Qed.

Lemma preset_priority_truthy v : v ∈ PRESET_PRIORITIES → Py.truthy v = true.
Proof.
  unfold PRESET_PRIORITIES. rewrite !elem_of_cons, elem_of_nil.
  intros [->|[->|[->|[->|[]]]]]; reflexivity.
Qed.

(** In every state of the menu the confirm button is disabled exactly when
    a field is missing, and the fields hold offered values only. *)
Lemma reachable_inv opener self :
  reachable opener self →
  confirm_disabled self = negb (both_selected self) ∧
  (∀ v, reason self = Some v → v ∈ PRESET_REASONS) ∧
  (∀ v, priority self = Some v → v ∈ PRESET_PRIORITIES).
Proof.
  induction 1 as [|self interaction e w self' w' Hr (IHd & IHr & IHp) Hoff Hstep].
  - simpl. by repeat split.
  - destruct e as [v|v]; simpl in Hoff, Hstep;
      unfold on_reason, on_priority, _refresh in Hstep; run_coro;
      injection Hstep as <- _; simpl.
    + split; [done|]. split; [by intros ? [= <-]|done].
    + split; [done|]. split; [done|by intros ? [= <-]].
Qed.

Lemma reachable_both_selected opener self :
  reachable opener self →
  is_Some (reason self) → is_Some (priority self) → both_selected self = true.
Proof.
  intros (_ & Hr & Hp)%reachable_inv [r Er] [p Ep]. unfold both_selected.
  rewrite Er, Ep. simpl.
  by rewrite (preset_reason_truthy r (Hr r Er)), (preset_priority_truthy p (Hp p Ep)).
Qed.

Lemma unset_not_both_selected self :
  reason self = None ∨ priority self = None → both_selected self = false.
Proof.
  unfold both_selected. intros [->| ->]; simpl; [done|apply andb_false_r].
Qed.

(** C2. While the reason or the priority of the menu is unset, confirm is
    rejected: the button is disabled and [on_confirm], if invoked anyway,
    only refuses and creates nothing. Once both fields are set the button is
    enabled, and [on_confirm] (in a guild where the platform lets the bot
    open tickets) adds exactly one channel to the guild. *)
Theorem confirm_guard STAFF_ROLE_ID TICKET_CATEGORY_NAME (opener : Member)
    (self : TicketOpenView) (i : Interaction) (w : World) :
  reachable opener self →
  (reason self = None ∨ priority self = None →
   confirm_disabled self = true ∧
   refused "Please select both fields first."
     (on_confirm STAFF_ROLE_ID TICKET_CATEGORY_NAME self i w) w ∧
   channels (on_confirm STAFF_ROLE_ID TICKET_CATEGORY_NAME self i w).2 = channels w) ∧
  (is_Some (reason self) → is_Some (priority self) →
   confirm_disabled self = false ∧
   (in_guild i = true → config_ok STAFF_ROLE_ID →
    may_open_ticket TICKET_CATEGORY_NAME w →
    ∃ cid ch w',
      on_confirm STAFF_ROLE_ID TICKET_CATEGORY_NAME self i w = (Ok tt, w') ∧
      channels w !! cid = None ∧
      channels w' = <[cid := ch]> (channels w) ∧
      size (channels w') = S (size (channels w)))).
Proof.
  intros Hr. destruct (reachable_inv opener self Hr) as (Hd & _). split.
  - intros Hunset. pose proof (unset_not_both_selected self Hunset) as Hb.
    assert (on_confirm STAFF_ROLE_ID TICKET_CATEGORY_NAME self i w =
            (Ok tt, push_output
               (SendMessage "Please select both fields first." true None) w)) as E.
    { unfold on_confirm. by rewrite Hb. }
    split; [by rewrite Hd, Hb|]. split; [exact E|by rewrite E].
  - intros Hsr Hsp. pose proof (reachable_both_selected opener self Hr Hsr Hsp) as Hb.
    split; [by rewrite Hd, Hb|].
    intros Hg Hok Hmay.
    destruct (on_confirm_opens STAFF_ROLE_ID TICKET_CATEGORY_NAME self i w Hb Hg Hok Hmay)
      as (cid & ch & w' & E & Hnew & Hch & _).
    exists cid, ch, w'. split; [done|]. split; [done|]. split; [done|].
    rewrite Hch. by apply map_size_insert_None.
Qed.

Lemma confirm_guard_witness :
  confirm_disabled Scenario.menu_reason = true ∧
  confirm_disabled Scenario.menu_filled = false ∧
  ∃ w', on_confirm Scenario.STAFF "Tickets" Scenario.menu_filled
          (Scenario.in_ticket Scenario.ann) (Scenario.guild Scenario.permissive)
        = (Ok tt, w') ∧
        size (channels w') = 2%nat.
Proof.
  assert (reachable Scenario.ann Scenario.menu_reason) as H1.
  { eapply (reach_select Scenario.ann (TicketOpenView_init Scenario.ann)
              (Scenario.in_ticket Scenario.ann) (SelectReason "Technical Issue")
              (Scenario.guild Scenario.permissive)).
    - apply reach_open.
    - simpl. unfold PRESET_REASONS. set_solver.
    - reflexivity. }
  assert (reachable Scenario.ann Scenario.menu_filled) as H2.
  { eapply (reach_select Scenario.ann Scenario.menu_reason
              (Scenario.in_ticket Scenario.ann) (SelectPriority "High")
              (Scenario.guild Scenario.permissive)).
    - exact H1.
    - simpl. unfold PRESET_PRIORITIES. set_solver.
    - reflexivity. }
  assert (may_open_ticket "Tickets" (Scenario.guild Scenario.permissive)) as Hmay.
  { split; [reflexivity|]. left. by eexists. }
  split.
  { apply (confirm_guard Scenario.STAFF "Tickets" Scenario.ann Scenario.menu_reason
             (Scenario.in_ticket Scenario.ann) (Scenario.guild Scenario.permissive) H1).
    by right. }
  destruct (confirm_guard Scenario.STAFF "Tickets" Scenario.ann Scenario.menu_filled
              (Scenario.in_ticket Scenario.ann) (Scenario.guild Scenario.permissive) H2)
    as [_ Hset].
  destruct (Hset (ltac:(by eexists)) (ltac:(by eexists))) as [Hen Hopen].
  split; [exact Hen|].
  destruct (Hopen eq_refl (config_okb_ok Scenario.STAFF eq_refl) Hmay)
    as (cid & ch & w' & E & _ & _ & Hsize).
  exists w'. split; [exact E|]. exact Hsize.
Defined.

(** C3, on the code. With both fields set, a platform that refuses the
    creation of the channel makes [on_confirm] raise [Forbidden]: the
    exception leaves the callback, no message is sent to the user, and no
    channel is created. *)
Theorem confirm_forbidden_unreported :
  on_confirm Scenario.STAFF "Tickets" Scenario.menu_filled
    (Scenario.in_ticket Scenario.ann) (Scenario.guild (Scenario.deny OpCreateChannel))
  = (Raise Forbidden, Scenario.guild (Scenario.deny OpCreateChannel)) ∧
  outbox (Scenario.guild (Scenario.deny OpCreateChannel)) = [].
Proof.
  split; [|reflexivity].
  apply on_confirm_forbidden; try reflexivity.
  - by apply config_okb_ok.
  - by eexists.
Qed.

Lemma lower_char_space c : Ascii.eqb (Py.lower_char c) " " = Ascii.eqb c " ".
Proof. by destruct c as [[] [] [] [] [] [] [] []]. Qed.

Lemma safe_name_spec s : Py.replace " " "-" (Py.lower s) = spec_safe_name s.
Proof.
  induction s as [|c s IH]; [done|]. simpl.
  unfold spec_name_char. rewrite lower_char_space.
  destruct (Ascii.eqb c " "); simpl; by rewrite IH.
Qed.

Lemma channel_name_of_spec m :
  channel_name_of m =
  "ticket-" +:+ spec_safe_name (name m) +:+ "-" +:+ spec_suffix m.
Proof.
  unfold channel_name_of, spec_suffix. rewrite safe_name_spec.
  by destruct (String.eqb (discriminator m) "0").
Qed.

Lemma spec_name_char_plain c :
  Ascii.eqb (spec_name_char c) " " = false ∧ Py.is_upper (spec_name_char c) = false.
Proof. by destruct c as [[] [] [] [] [] [] [] []]. Qed.

Lemma spec_safe_name_plain s :
  Py.contains " " (spec_safe_name s) = false ∧
  Py.has_upper (spec_safe_name s) = false ∧
  String.length (spec_safe_name s) = String.length s.
Proof.
  induction s as [|c s (IH1 & IH2 & IH3)]; [done|].
  destruct (spec_name_char_plain c) as [Hs Hu]. cbn [spec_safe_name].
  cbn [Py.contains Py.has_upper String.length]. by rewrite Hs, Hu, IH1, IH2, IH3.
Qed.

(** The parts of the channel name that [on_confirm] computes. *)
Lemma channel_name_parts (m : Member) :
  ∃ safe,
    channel_name_of m =
      "ticket-" +:+ safe +:+ "-" +:+
      (if String.eqb (discriminator m) "0" then Py.str_of_int (id m)
       else discriminator m) ∧
    Py.contains " " safe = false ∧
    Py.has_upper safe = false ∧
    (Py.ascii_only (name m) = true →
     safe = spec_safe_name (name m) ∧ String.length safe = String.length (name m)).
Proof.
  exists (spec_safe_name (name m)).
  destruct (spec_safe_name_plain (name m)) as (H1 & H2 & H3).
  split; [by rewrite channel_name_of_spec|]. split; [exact H1|]. split; [exact H2|].
  intros _. by split.
Qed.




(** ** Participants *)

Lemma add_user_grants STAFF_ROLE_ID self i w cid c m target :
  can_manage STAFF_ROLE_ID i (add_opener_id self) = Ok true →
  channel i = Some (mkChannelRef TextChannel cid) →
  in_guild i = true →
  List.find (fun x => id x =? m) (members w) = Some target →
  channels w !! cid = Some c →
  denied w OpEditPermissions = false →
  AddUserView_select_user STAFF_ROLE_ID self i m w =
    (Ok tt,
     push_output
       (SendMessage ("Added " +:+ member_mention target +:+ " to this ticket.") true None)
       (set_channels
          (insert cid (set_overwrites (insert (MemberT m) opener_overwrite) c)) w)).
Proof.
  intros Hcm Hch Hg Hf Hc Hd.
  assert (id target = m) as Hid.
  { apply find_some in Hf as [_ Hf]. by apply Z.eqb_eq. }
  unfold AddUserView_select_user, is_text_channel_or_thread, get_member,
    channel_set_permissions, set_permissions.
  run_coro. rewrite Hcm, Hch, Hg. simpl. rewrite Hf. simpl.
  rewrite Hc, Hd. simpl. by rewrite Hid.
Qed.

Lemma remove_user_clears STAFF_ROLE_ID self i w cid c m target :
  can_manage STAFF_ROLE_ID i (remove_opener_id self) = Ok true →
  channel i = Some (mkChannelRef TextChannel cid) →
  in_guild i = true →
  List.find (fun x => id x =? m) (members w) = Some target →
  channels w !! cid = Some c →
  denied w OpEditPermissions = false →
  RemoveUserView_select_user STAFF_ROLE_ID self i m w =
    (Ok tt,
     push_output
       (SendMessage ("Removed " +:+ member_mention target +:+ " from this ticket.") true None)
       (set_channels (insert cid (set_overwrites (delete (MemberT m)) c)) w)).
Proof.
  intros Hcm Hch Hg Hf Hc Hd.
  assert (id target = m) as Hid.
  { apply find_some in Hf as [_ Hf]. by apply Z.eqb_eq. }
  unfold RemoveUserView_select_user, is_text_channel_or_thread, get_member,
    channel_set_permissions, set_permissions.
  run_coro. rewrite Hcm, Hch, Hg. simpl. rewrite Hf. simpl.
  rewrite Hc, Hd. simpl. by rewrite Hid.
Qed.

Lemma set_overwrites_id c : set_overwrites (fun o => o) c = c.
Proof. by destruct c. Qed.

(** C5, as the code has it. add-user for [m] followed at once by
    remove-user for [m] leaves no overwrite for [m] on the channel and
    touches no other overwrite; when [m] had no overwrite of their own
    before the add, the channels are exactly what they were, and so is the
    access of [m] that the platform resolves from them. *)
Theorem add_then_remove_user STAFF_ROLE_ID (adder : AddUserView) (remover : RemoveUserView)
    (i1 i2 : Interaction) (w : World) (cid : Z) (c : Channel) (m : Z) (target : Member) :
  can_manage STAFF_ROLE_ID i1 (add_opener_id adder) = Ok true →
  can_manage STAFF_ROLE_ID i2 (remove_opener_id remover) = Ok true →
  channel i1 = Some (mkChannelRef TextChannel cid) →
  channel i2 = Some (mkChannelRef TextChannel cid) →
  in_guild i1 = true → in_guild i2 = true →
  List.find (fun x => id x =? m) (members w) = Some target →
  channels w !! cid = Some c →
  denied w OpEditPermissions = false →
  ∃ w1 w2 c2,
    AddUserView_select_user STAFF_ROLE_ID adder i1 m w = (Ok tt, w1) ∧
    RemoveUserView_select_user STAFF_ROLE_ID remover i2 m w1 = (Ok tt, w2) ∧
    channels w2 !! cid = Some c2 ∧
    ch_overwrites c2 !! MemberT m = None ∧
    (∀ t, t ≠ MemberT m → ch_overwrites c2 !! t = ch_overwrites c !! t) ∧
    (ch_overwrites c !! MemberT m = None →
     channels w2 = channels w ∧
     ∀ base, permissions_for (guild_id w2) c2 target base
             = permissions_for (guild_id w) c target base).
Proof.
  intros Hcm1 Hcm2 Hch1 Hch2 Hg1 Hg2 Hf Hc Hd.
  pose (c1 := set_overwrites (insert (MemberT m) opener_overwrite) c).
  pose (w1 := push_output
          (SendMessage ("Added " +:+ member_mention target +:+ " to this ticket.") true None)
          (set_channels (insert cid c1) w)).
  assert (channels w1 !! cid = Some c1) as Hc1 by apply lookup_insert_eq.
  eexists w1, _, _.
  split; [by apply (add_user_grants _ adder i1 w cid c m target)|].
  split; [by apply (remove_user_clears _ remover i2 w1 cid c1 m target)|].
  simpl. split; [apply lookup_insert_eq|]. simpl.
  split; [apply lookup_delete_eq|].
  split.
  { intros t Ht. by rewrite lookup_delete_ne, lookup_insert_ne. }
  intros Hnone.
  assert (set_overwrites (delete (MemberT m))
            (set_overwrites (insert (MemberT m) opener_overwrite) c) = c) as Ec.
  { destruct c as [n cat top ows msgs]. unfold set_overwrites. simpl in *.
    f_equal. rewrite delete_insert_eq. by apply delete_id. }
  subst w1 c1. simpl. rewrite Ec. split; [|done].
  rewrite insert_insert_eq. by apply insert_id.
Qed.

Lemma add_then_remove_user_witness :
  ∃ w2,
    (RemoveUserView_select_user Scenario.STAFF (mkRemoveUserView 7)
       (Scenario.in_ticket Scenario.ann) 8
       (AddUserView_select_user Scenario.STAFF (mkAddUserView 7)
          (Scenario.in_ticket Scenario.ann) 8
          (Scenario.guild Scenario.permissive)).2).2 = w2 ∧
    channels w2 = channels (Scenario.guild Scenario.permissive).
Proof.
  destruct (add_then_remove_user Scenario.STAFF (mkAddUserView 7) (mkRemoveUserView 7)
              (Scenario.in_ticket Scenario.ann) (Scenario.in_ticket Scenario.ann)
              (Scenario.guild Scenario.permissive) 50 Scenario.ticket_channel 8
              Scenario.eve eq_refl eq_refl eq_refl eq_refl eq_refl eq_refl eq_refl
              eq_refl eq_refl)
    as (w1 & w2 & c2 & E1 & E2 & _ & _ & _ & Hsame).
  exists w2. split.
  - rewrite E1. simpl. by rewrite E2.
  - apply Hsame. reflexivity.
Defined.

(** C5 as stated fails for a member who already has an overwrite: after
    add-user and remove-user for the opener of the ticket, the overwrite the
    opener had is gone, and with it the opener's view of the channel. *)
Lemma add_then_remove_opener_loses_access :
  ∃ w1 w2 c2,
    AddUserView_select_user Scenario.STAFF (mkAddUserView 7)
      (Scenario.in_ticket Scenario.ann) 7 (Scenario.guild Scenario.permissive)
      = (Ok tt, w1) ∧
    RemoveUserView_select_user Scenario.STAFF (mkRemoveUserView 7)
      (Scenario.in_ticket Scenario.ann) 7 w1 = (Ok tt, w2) ∧
    channels w2 !! 50 = Some c2 ∧
    ch_overwrites Scenario.ticket_channel !! MemberT 7 = Some opener_overwrite ∧
    ch_overwrites c2 !! MemberT 7 = None ∧
    can_view 1 Scenario.ticket_channel Scenario.ann
      (Z.lor view_channel (Z.lor send_messages read_message_history)) = true ∧
    can_view 1 c2 Scenario.ann
      (Z.lor view_channel (Z.lor send_messages read_message_history)) = false.
Proof.
  pose (c1 := set_overwrites (insert (MemberT 7) opener_overwrite) Scenario.ticket_channel).
  eexists _, _, _.
  split; [by apply (add_user_grants _ _ _ _ 50 Scenario.ticket_channel 7 Scenario.ann)|].
  split; [by apply (remove_user_clears _ _ _ _ 50 c1 7 Scenario.ann)|].
  simpl. split; [apply lookup_insert_eq|].
  split; [by vm_compute|]. split; [by vm_compute|]. split; by vm_compute.
Qed.

(** ** Transcript *)

Lemma contains_app c a b :
  Py.contains c (a +:+ b) = Py.contains c a || Py.contains c b.
Proof.
  induction a as [|d a IH]; simpl; [done|]. by rewrite IH, orb_assoc.
Qed.

Lemma split_no_sep c s : Py.contains c s = false → Py.split c s = [s].
Proof.
  induction s as [|d s IH]; simpl; [done|].
  intros [Hd Hs]%orb_false_iff. by rewrite Hd, (IH Hs).
Qed.

Lemma split_app_sep c s rest :
  Py.contains c s = false →
  Py.split c (s +:+ String c rest) = s :: Py.split c rest.
Proof.
  induction s as [|d s IH]; simpl.
  - intros _. by rewrite Ascii.eqb_refl.
  - intros [Hd Hs]%orb_false_iff. by rewrite Hd, (IH Hs).
Qed.

(** Reading back a joined text line by line gives the lines that were
    joined, in their order. *)
Lemma split_join_lines (ls : list string) :
  ls ≠ [] →
  (∀ l, l ∈ ls → Py.contains Py.newline l = false) →
  Py.split Py.newline (Py.join Py.NL ls) = ls.
Proof.
  induction ls as [|l ls IH]; [done|]. intros _ Hall.
  assert (Py.contains Py.newline l = false) as Hl by (apply Hall; left).
  destruct ls as [|l' ls].
  - simpl. by apply split_no_sep.
  - change (Py.join Py.NL (l :: l' :: ls))
      with (l +:+ String Py.newline (Py.join Py.NL (l' :: ls))).
    rewrite (split_app_sep _ _ _ Hl). f_equal.
    apply IH; [done|]. intros x Hx. apply Hall. by right.
Qed.

Lemma contains_escaped s :
  Py.contains Py.newline (Py.replace Py.newline "\n" s) = false.
Proof.
  induction s as [|d s IH]; simpl; [done|].
  destruct (Ascii.eqb d Py.newline) eqn:E; simpl; [done|]. by rewrite E.
Qed.

Lemma digit_not_newline n : Ascii.eqb (digit n) Py.newline = false.
Proof.
  unfold digit. pose proof (Z.mod_pos_bound n 10 eq_refl) as Hb.
  assert (∃ k, (k < 10)%nat ∧ Z.to_nat (n mod 10) = k) as (k & Hk & ->)
    by (eexists; split; [|reflexivity]; lia).
  do 10 (destruct k as [|k]; [reflexivity|]). lia.
Qed.

Lemma pad2_one_line n : Py.contains Py.newline (pad2 n) = false.
Proof. unfold pad2. cbn [Py.contains]. by rewrite !digit_not_newline. Qed.

Lemma pad4_one_line n : Py.contains Py.newline (pad4 n) = false.
Proof. unfold pad4, pad2. cbn [Py.contains]. by rewrite !digit_not_newline. Qed.

Lemma fmt_ts_one_line t : Py.contains Py.newline (fmt_ts t) = false.
Proof.
  unfold fmt_ts. destruct (civil_from_days _) as [[y m] d].
  by rewrite !contains_app, pad4_one_line, !pad2_one_line.
Qed.

Lemma uint_one_line d :
  Py.contains Py.newline (NilEmpty.string_of_uint d) = false.
Proof. induction d; simpl; done. Qed.

Lemma str_of_int_one_line n : Py.contains Py.newline (Py.str_of_int n) = false.
Proof.
  unfold Py.str_of_int, NilZero.string_of_int, NilZero.string_of_uint.
  destruct (Z.to_int n) as [d|d]; destruct d; simpl; try done; apply uint_one_line.
Qed.

Lemma join_one_line sep (ls : list string) :
  Py.contains Py.newline sep = false →
  (∀ l, l ∈ ls → Py.contains Py.newline l = false) →
  Py.contains Py.newline (Py.join sep ls) = false.
Proof.
  intros Hsep. induction ls as [|l ls IH]; [done|]. intros Hall.
  assert (Py.contains Py.newline l = false) as Hl by (apply Hall; left).
  destruct ls as [|l' ls]; [done|].
  change (Py.join sep (l :: l' :: ls)) with (l +:+ sep +:+ Py.join sep (l' :: ls)).
  rewrite !contains_app, Hl, Hsep, IH; [done|].
  intros x Hx. apply Hall. by right.
Qed.

Lemma member_str_one_line m :
  Py.contains Py.newline (name m) = false →
  Py.contains Py.newline (discriminator m) = false →
  Py.contains Py.newline (member_str m) = false.
Proof.
  intros Hn Hd. unfold member_str. destruct (String.eqb _ _); [done|].
  by rewrite !contains_app, Hn, Hd.
Qed.

Lemma transcript_line_one_line msg :
  single_line_fields msg →
  Py.contains Py.newline (transcript_line msg) = false.
Proof.
  intros (Hn & Hd & Hu). unfold transcript_line.
  rewrite !contains_app, fmt_ts_one_line, (member_str_one_line _ Hn Hd),
    str_of_int_one_line, contains_escaped. simpl.
  destruct (attachments msg) as [|a atts] eqn:Ea; [done|].
  assert (Py.contains Py.newline (Py.join ", " (url <$> a :: atts)) = false) as Hj.
  { apply join_one_line; [done|].
    intros l (a' & -> & Ha')%list_elem_of_fmap. by apply Hu. }
  rewrite contains_app. simpl in Hj |- *. by rewrite Hj.
Qed.

Lemma transcript_delivers STAFF_ROLE_ID self i w cid c :
  can_manage STAFF_ROLE_ID i (opener_id self) = Ok true →
  channel i = Some (mkChannelRef TextChannel cid) →
  channels w !! cid = Some c →
  TicketPanel_transcript STAFF_ROLE_ID self i w =
    (Ok tt,
     push_output
       (FollowupSend "Here is the transcript."
          (Some (mkFile ("transcript-" +:+ ch_name c +:+ ".txt")
                   (transcript_text (ch_messages c)))) true)
       (push_output (Defer true true) w)).
Proof.
  intros Hcm Hch Hc. unfold TicketPanel_transcript, is_text_channel, history.
  run_coro. rewrite Hcm, Hch. simpl. rewrite Hc.
  change (channels (push_output (Defer true true) w)) with (channels w).
  by rewrite Hc.
Qed.

Lemma sorted_lookup_lt (l : list Z) j k x y :
  StronglySorted Z.lt l → (j < k)%nat → l !! j = Some x → l !! k = Some y → x < y.
Proof.
  intros Hs. revert j k. induction Hs as [|a l Hs IH Hall]; intros j k Hjk Hj Hk.
  - by rewrite lookup_nil in Hj.
  - destruct k as [|k]; [lia|]. destruct j as [|j]; simpl in *.
    + injection Hj as <-. rewrite Forall_forall in Hall. apply Hall.
      apply list_elem_of_lookup. by exists k.
    + apply (IH j k); [lia|done|done].
Qed.

(** C4. For a history read with timestamps [t1 < t2 < ... < tn], the
    artifact that [transcript] delivers holds one line per message, in that
    chronological order; each line is [[timestamp] author (id): content]
    with the line breaks of the content escaped and the attachment URLs
    appended; an empty history gives the text ["No messages."]. *)
Theorem transcript_in_order STAFF_ROLE_ID (self : TicketPanel) (i : Interaction)
    (w : World) (cid : Z) (c : Channel) :
  can_manage STAFF_ROLE_ID i (opener_id self) = Ok true →
  channel i = Some (mkChannelRef TextChannel cid) →
  channels w !! cid = Some c →
  (∀ m, m ∈ ch_messages c → single_line_fields m) →
  StronglySorted Z.lt (created_at <$> ch_messages c) →
  ∃ text,
    TicketPanel_transcript STAFF_ROLE_ID self i w =
      (Ok tt,
       push_output
         (FollowupSend "Here is the transcript."
            (Some (mkFile ("transcript-" +:+ ch_name c +:+ ".txt") text)) true)
         (push_output (Defer true true) w)) ∧
    (ch_messages c = [] → text = "No messages.") ∧
    (ch_messages c ≠ [] →
     Py.split Py.newline text = transcript_line <$> ch_messages c) ∧
    (∀ j k mj mk, (j < k)%nat →
       ch_messages c !! j = Some mj → ch_messages c !! k = Some mk →
       Py.split Py.newline text !! j = Some (transcript_line mj) ∧
       Py.split Py.newline text !! k = Some (transcript_line mk) ∧
       created_at mj < created_at mk) ∧
    (∀ m, m ∈ ch_messages c →
       Py.contains Py.newline (transcript_line m) = false ∧
       transcript_line m =
         "[" +:+ fmt_ts (created_at m) +:+ "] " +:+
         (member_str (author m) +:+ " (" +:+ Py.str_of_int (id (author m)) +:+ ")") +:+
         ": " +:+ Py.replace Py.newline "\n" (content m) +:+
         match attachments m with
         | [] => ""
         | atts => " | Attachments: " +:+ Py.join ", " (url <$> atts)
         end).
Proof.
  intros Hcm Hch Hc Hone Hsorted.
  exists (transcript_text (ch_messages c)).
  split; [by apply (transcript_delivers _ self i w cid c)|].
  split; [by intros ->|].
  assert (ch_messages c ≠ [] →
          Py.split Py.newline (transcript_text (ch_messages c))
          = transcript_line <$> ch_messages c) as Hsplit.
  { intros Hne. unfold transcript_text.
    destruct (transcript_line <$> ch_messages c) as [|l ls] eqn:El.
    - apply fmap_nil_inv in El. done.
    - rewrite <- El. apply split_join_lines.
      + by rewrite El.
      + intros x (m & -> & Hm)%list_elem_of_fmap.
        by apply transcript_line_one_line, Hone. }
  split; [exact Hsplit|]. split.
  - intros j k mj mk Hjk Hj Hk.
    assert (ch_messages c ≠ []) as Hne by (intros E; by rewrite E, lookup_nil in Hj).
    rewrite (Hsplit Hne), !list_lookup_fmap, Hj, Hk. simpl.
    split; [done|]. split; [done|].
    apply (sorted_lookup_lt (created_at <$> ch_messages c) j k); [done|done| |].
    + by rewrite list_lookup_fmap, Hj.
    + by rewrite list_lookup_fmap, Hk.
  - intros m Hm. split; [by apply transcript_line_one_line, Hone|reflexivity].
Qed.

Lemma transcript_in_order_witness :
  ∃ text,
    (TicketPanel_transcript Scenario.STAFF (mkTicketPanel 7)
       (Scenario.in_ticket Scenario.ann) Scenario.busy_guild).1 = Ok tt ∧
    Py.split Py.newline text =
      [transcript_line Scenario.first_message; transcript_line Scenario.second_message].
Proof.
  assert (∀ m, m ∈ ch_messages Scenario.busy_channel → single_line_fields m) as Hone.
  { intros m Hm. simpl in Hm.
    apply elem_of_cons in Hm as [->|Hm];
      [|apply list_elem_of_singleton in Hm as ->];
      (split; [reflexivity|]; split; [reflexivity|]); simpl; intros a Ha.
    - apply elem_of_cons in Ha as [->|Ha];
        [|apply list_elem_of_singleton in Ha as ->]; reflexivity.
    - by apply elem_of_nil in Ha. }
  assert (StronglySorted Z.lt (created_at <$> ch_messages Scenario.busy_channel)) as Hs.
  { simpl. repeat constructor. }
  destruct (transcript_in_order Scenario.STAFF (mkTicketPanel 7)
              (Scenario.in_ticket Scenario.ann) Scenario.busy_guild 50
              Scenario.busy_channel eq_refl eq_refl eq_refl Hone Hs)
    as (text & E & _ & Hsplit & _).
  exists text. split; [by rewrite E|]. apply Hsplit. discriminate.
Defined.

(** * Further properties of the code *)

(** ** Access policy: when it raises *)

Lemma any_role_is_raises s rs e :
  any_role_is s rs = Raise e ↔ e = ValueError ∧ Py.int s = None ∧ rs ≠ [].
Proof.
  destruct (Py.int s) as [n|] eqn:Hn.
  - destruct (any_role_is_spec s n rs Hn) as (b & Hb & _). rewrite Hb.
    split; [done|]. by intros (_ & ? & _).
  - destruct rs as [|r rs]; simpl; rewrite ?Hn.
    + split; [done|]. by intros (_ & _ & ?).
    + split; [by intros [= <-]|]. by intros (-> & _).
Qed.

(** X1. [can_manage] raises only [ValueError], and exactly when the actor
    is not the opener, holds at least one role, and [STAFF_ROLE_ID] is a
    non-empty text that [int] rejects. *)
Theorem can_manage_raises STAFF_ROLE_ID (a : Interaction) (o : Z) (e : exn) :
  can_manage STAFF_ROLE_ID a o = Raise e ↔
  e = ValueError ∧ id (user a) ≠ o ∧ roles (user a) ≠ [] ∧
  ∃ s, STAFF_ROLE_ID = Some s ∧ Py.truthy s = true ∧ Py.int s = None.
Proof.
  destruct (decide (id (user a) = o)) as [Heq|Hne].
  - rewrite (can_manage_opener _ _ _ Heq). split; [done|]. by intros (_ & ? & _).
  - rewrite (can_manage_other _ _ _ Hne). unfold staff_check.
    destruct STAFF_ROLE_ID as [s|].
    + destruct (Py.truthy s) eqn:Ht.
      * rewrite any_role_is_raises. split.
        -- intros (-> & Hn & Hr). repeat split; try done. by exists s.
        -- intros (-> & _ & Hr & s' & [= <-] & _ & Hn). done.
      * split; [done|]. intros (_ & _ & _ & s' & [= <-] & Ht' & _). congruence.
    + split; [done|]. by intros (_ & _ & _ & s' & ? & _).
Qed.

(** ** Actions of an actor who may not manage the ticket *)

(** X2. For an actor whom [can_manage] turns down, the transcript, add-user
    and remove-user buttons and both user selectors do one thing only: they
    send their refusal to the actor. Nothing of the guild changes. *)
Theorem unauthorized_only_refused STAFF_ROLE_ID (self : TicketPanel) (i : Interaction)
    (selected : Z) (w : World) :
  can_manage STAFF_ROLE_ID i (opener_id self) = Ok false →
  refused "You are not allowed to get a transcript."
    (TicketPanel_transcript STAFF_ROLE_ID self i w) w ∧
  refused "You are not allowed to manage this ticket."
    (TicketPanel_add_user STAFF_ROLE_ID self i w) w ∧
  refused "You are not allowed to manage this ticket."
    (TicketPanel_remove_user STAFF_ROLE_ID self i w) w ∧
  refused "You are not allowed to manage this ticket."
    (AddUserView_select_user STAFF_ROLE_ID (mkAddUserView (opener_id self)) i selected w) w ∧
  refused "You are not allowed to manage this ticket."
    (RemoveUserView_select_user STAFF_ROLE_ID (mkRemoveUserView (opener_id self)) i selected w) w.
Proof.
  intros Hcm. unfold refused, TicketPanel_transcript, TicketPanel_add_user,
    TicketPanel_remove_user, AddUserView_select_user, RemoveUserView_select_user.
  run_coro. simpl. by rewrite Hcm.
Qed.

Lemma unauthorized_only_refused_witness :
  (TicketPanel_transcript Scenario.STAFF (mkTicketPanel 7)
     (Scenario.in_ticket Scenario.eve) Scenario.busy_guild).2
  = push_output (SendMessage "You are not allowed to get a transcript." true None)
      Scenario.busy_guild.
Proof.
  destruct (unauthorized_only_refused Scenario.STAFF (mkTicketPanel 7)
              (Scenario.in_ticket Scenario.eve) 9 Scenario.busy_guild eq_refl)
    as (E & _).
  unfold refused in E. by rewrite E.
Defined.

(** ** The user selectors *)

(** X3. When the picked user is not a member of the guild (or the selector
    is used outside a guild), both selectors answer "User is not in this
    server." and change no permission. *)
Theorem select_user_not_member STAFF_ROLE_ID (adder : AddUserView)
    (remover : RemoveUserView) (i : Interaction) (selected : Z) (w : World) (ch : ChannelRef) :
  can_manage STAFF_ROLE_ID i (add_opener_id adder) = Ok true →
  can_manage STAFF_ROLE_ID i (remove_opener_id remover) = Ok true →
  is_text_channel_or_thread i = Some ch →
  in_guild i = false ∨ List.find (fun m => id m =? selected) (members w) = None →
  refused "User is not in this server."
    (AddUserView_select_user STAFF_ROLE_ID adder i selected w) w ∧
  refused "User is not in this server."
    (RemoveUserView_select_user STAFF_ROLE_ID remover i selected w) w.
Proof.
  intros Ha Hr Hch Hno.
  unfold refused, AddUserView_select_user, RemoveUserView_select_user, get_member.
  run_coro. rewrite Ha, Hr, Hch. simpl.
  destruct (in_guild i); [|done].
  destruct Hno as [?|Hf]; [done|]. simpl. by rewrite Hf.
Qed.

Lemma select_user_not_member_witness :
  (AddUserView_select_user Scenario.STAFF (mkAddUserView 7)
     (Scenario.in_ticket Scenario.ann) 12345 (Scenario.guild Scenario.permissive)).2
  = push_output (SendMessage "User is not in this server." true None)
      (Scenario.guild Scenario.permissive).
Proof.
  destruct (select_user_not_member Scenario.STAFF (mkAddUserView 7) (mkRemoveUserView 7)
              (Scenario.in_ticket Scenario.ann) 12345 (Scenario.guild Scenario.permissive)
              (mkChannelRef TextChannel 50) eq_refl eq_refl eq_refl
              (or_intror eq_refl)) as (E & _).
  unfold refused in E. by rewrite E.
Defined.

(** X4. When the platform refuses the permission edit, both selectors
    report "Missing permission to modify channel permissions." to the actor
    and the overwrites stay as they were. *)
Theorem select_user_forbidden STAFF_ROLE_ID (adder : AddUserView)
    (remover : RemoveUserView) (i : Interaction) (selected : Z) (w : World)
    (cid : Z) (c : Channel) (target : Member) :
  can_manage STAFF_ROLE_ID i (add_opener_id adder) = Ok true →
  can_manage STAFF_ROLE_ID i (remove_opener_id remover) = Ok true →
  channel i = Some (mkChannelRef TextChannel cid) →
  in_guild i = true →
  List.find (fun m => id m =? selected) (members w) = Some target →
  channels w !! cid = Some c →
  denied w OpEditPermissions = true →
  refused "Missing permission to modify channel permissions."
    (AddUserView_select_user STAFF_ROLE_ID adder i selected w) w ∧
  refused "Missing permission to modify channel permissions."
    (RemoveUserView_select_user STAFF_ROLE_ID remover i selected w) w.
Proof.
  intros Ha Hr Hch Hg Hf Hc Hd.
  unfold refused, AddUserView_select_user, RemoveUserView_select_user,
    is_text_channel_or_thread, get_member, channel_set_permissions, set_permissions.
  run_coro. rewrite Ha, Hr, Hch, Hg. simpl. rewrite Hf. simpl. by rewrite Hc, Hd.
Qed.

Lemma select_user_forbidden_witness :
  channels (RemoveUserView_select_user Scenario.STAFF (mkRemoveUserView 7)
     (Scenario.in_ticket Scenario.ann) 8
     (Scenario.guild (Scenario.deny OpEditPermissions))).2
  = channels (Scenario.guild (Scenario.deny OpEditPermissions)).
Proof.
  destruct (select_user_forbidden Scenario.STAFF (mkAddUserView 7) (mkRemoveUserView 7)
              (Scenario.in_ticket Scenario.ann) 8
              (Scenario.guild (Scenario.deny OpEditPermissions))
              50 Scenario.ticket_channel Scenario.eve
              eq_refl eq_refl eq_refl eq_refl eq_refl eq_refl eq_refl) as (_ & E).
  unfold refused in E. by rewrite E.
Defined.

(** X5. add-user sets the overwrite of the picked member to the four
    grants whatever that member had before, touches no other overwrite, and
    is idempotent: pressing it again for the same member changes no channel. *)
Theorem add_user_idempotent STAFF_ROLE_ID (self : AddUserView) (i : Interaction)
    (w : World) (cid : Z) (c : Channel) (m : Z) (target : Member) :
  can_manage STAFF_ROLE_ID i (add_opener_id self) = Ok true →
  channel i = Some (mkChannelRef TextChannel cid) →
  in_guild i = true →
  List.find (fun x => id x =? m) (members w) = Some target →
  channels w !! cid = Some c →
  denied w OpEditPermissions = false →
  ∃ w1 w2 c1,
    AddUserView_select_user STAFF_ROLE_ID self i m w = (Ok tt, w1) ∧
    AddUserView_select_user STAFF_ROLE_ID self i m w1 = (Ok tt, w2) ∧
    channels w1 !! cid = Some c1 ∧
    ch_overwrites c1 !! MemberT m = Some opener_overwrite ∧
    (∀ t, t ≠ MemberT m → ch_overwrites c1 !! t = ch_overwrites c !! t) ∧
    channels w2 = channels w1.
Proof.
  intros Hcm Hch Hg Hf Hc Hd.
  pose (c1 := set_overwrites (insert (MemberT m) opener_overwrite) c).
  pose (w1 := push_output
          (SendMessage ("Added " +:+ member_mention target +:+ " to this ticket.") true None)
          (set_channels (insert cid c1) w)).
  assert (channels w1 !! cid = Some c1) as Hc1 by apply lookup_insert_eq.
  eexists w1, _, c1.
  split; [by apply (add_user_grants _ self i w cid c m target)|].
  split; [by apply (add_user_grants _ self i w1 cid c1 m target)|].
  split; [done|]. split; [apply lookup_insert_eq|].
  split; [intros t Ht; by apply lookup_insert_ne|].
  subst w1 c1. simpl. rewrite insert_insert_eq. f_equal.
  destruct c. unfold set_overwrites. simpl. by rewrite insert_insert_eq.
Qed.

Lemma add_user_idempotent_witness :
  ∃ w1 c1,
    (AddUserView_select_user Scenario.STAFF (mkAddUserView 7)
       (Scenario.in_ticket Scenario.ann) 8 (Scenario.guild Scenario.permissive)).2 = w1 ∧
    channels w1 !! 50 = Some c1 ∧
    ch_overwrites c1 !! MemberT 8 = Some opener_overwrite.
Proof.
  destruct (add_user_idempotent Scenario.STAFF (mkAddUserView 7)
              (Scenario.in_ticket Scenario.ann) (Scenario.guild Scenario.permissive)
              50 Scenario.ticket_channel 8 Scenario.eve
              eq_refl eq_refl eq_refl eq_refl eq_refl eq_refl)
    as (w1 & w2 & c1 & E1 & _ & Hc1 & Ho & _).
  exists w1, c1. split; [by rewrite E1|]. by split.
Defined.

(** X6. add-user for two different members commutes: whichever is added
    first, the channels end up the same. *)
Theorem add_users_commute STAFF_ROLE_ID (self : AddUserView) (i : Interaction)
    (w : World) (cid : Z) (c : Channel) (m1 m2 : Z) (t1 t2 : Member) :
  can_manage STAFF_ROLE_ID i (add_opener_id self) = Ok true →
  channel i = Some (mkChannelRef TextChannel cid) →
  in_guild i = true →
  List.find (fun x => id x =? m1) (members w) = Some t1 →
  List.find (fun x => id x =? m2) (members w) = Some t2 →
  channels w !! cid = Some c →
  denied w OpEditPermissions = false →
  m1 ≠ m2 →
  channels (AddUserView_select_user STAFF_ROLE_ID self i m2
              (AddUserView_select_user STAFF_ROLE_ID self i m1 w).2).2
  = channels (AddUserView_select_user STAFF_ROLE_ID self i m1
                (AddUserView_select_user STAFF_ROLE_ID self i m2 w).2).2.
Proof.
  intros Hcm Hch Hg Hf1 Hf2 Hc Hd Hne.
  assert (∀ m t m' t',
    List.find (fun x => id x =? m) (members w) = Some t →
    List.find (fun x => id x =? m') (members w) = Some t' →
    channels (AddUserView_select_user STAFF_ROLE_ID self i m'
                (AddUserView_select_user STAFF_ROLE_ID self i m w).2).2
    = <[cid := set_overwrites (insert (MemberT m') opener_overwrite)
                 (set_overwrites (insert (MemberT m) opener_overwrite) c)]>
        (channels w)) as Hboth.
  { intros m t m' t' Hf Hf'.
    pose (c1 := set_overwrites (insert (MemberT m) opener_overwrite) c).
    pose (w1 := push_output
            (SendMessage ("Added " +:+ member_mention t +:+ " to this ticket.") true None)
            (set_channels (insert cid c1) w)).
    assert (channels w1 !! cid = Some c1) as Hc1 by apply lookup_insert_eq.
    rewrite (add_user_grants _ self i w cid c m t Hcm Hch Hg Hf Hc Hd).
    cbn [snd]. fold c1. fold w1.
    rewrite (add_user_grants _ self i w1 cid c1 m' t' Hcm Hch Hg Hf' Hc1 Hd).
    subst w1 c1. simpl. by rewrite insert_insert_eq. }
  rewrite (Hboth m1 t1 m2 t2 Hf1 Hf2), (Hboth m2 t2 m1 t1 Hf2 Hf1). f_equal.
  destruct c. unfold set_overwrites. simpl. f_equal.
  apply insert_insert_ne. unfold MemberT. congruence.
Qed.

Lemma add_users_commute_witness :
  channels (AddUserView_select_user Scenario.STAFF (mkAddUserView 7)
              (Scenario.in_ticket Scenario.ann) 9
              (AddUserView_select_user Scenario.STAFF (mkAddUserView 7)
                 (Scenario.in_ticket Scenario.ann) 8
                 (Scenario.guild Scenario.permissive)).2).2
  = channels (AddUserView_select_user Scenario.STAFF (mkAddUserView 7)
                (Scenario.in_ticket Scenario.ann) 8
                (AddUserView_select_user Scenario.STAFF (mkAddUserView 7)
                   (Scenario.in_ticket Scenario.ann) 9
                   (Scenario.guild Scenario.permissive)).2).2.
Proof.
  apply (add_users_commute Scenario.STAFF (mkAddUserView 7)
           (Scenario.in_ticket Scenario.ann) (Scenario.guild Scenario.permissive)
           50 Scenario.ticket_channel 8 9 Scenario.eve Scenario.sam);
    try reflexivity. lia.
Defined.



(** ** Closing a ticket *)

Lemma close_authorized STAFF_ROLE_ID self i w :
  can_manage STAFF_ROLE_ID i (opener_id self) = Ok true →
  TicketPanel_close STAFF_ROLE_ID self i w =
    match is_text_channel i with
    | None => (Ok tt, after_grace w)
    | Some cid =>
        match channels w !! cid with
        | None => (Raise NotFound, after_grace w)
        | Some _ =>
            if denied w OpDeleteChannel
            then (Ok tt, push_output
                     (FollowupSend "I lack permission to delete this channel." None true)
                     (after_grace w))
            else (Ok tt, set_channels (delete cid) (after_grace w))
        end
    end.
Proof.
  intros Hcm. unfold TicketPanel_close, channel_delete, after_grace, closing_message.
  run_coro. rewrite Hcm. simpl.
  destruct (is_text_channel i) as [cid|]; [|done].
  change (channels (set_now _ (push_output _ w))) with (channels w).
  destruct (channels w !! cid); [|done].
  change (denied (set_now _ (push_output _ w))) with (denied w).
  by destruct (denied w OpDeleteChannel).
Qed.

(** X8. [close] pressed by an actor who may manage the ticket, in a text
    channel the bot may delete: the actor gets the acknowledgement, five
    seconds pass, and exactly that channel is removed from the guild. *)
Theorem close_deletes_channel STAFF_ROLE_ID (self : TicketPanel) (i : Interaction)
    (w : World) (cid : Z) (c : Channel) :
  can_manage STAFF_ROLE_ID i (opener_id self) = Ok true →
  channel i = Some (mkChannelRef TextChannel cid) →
  channels w !! cid = Some c →
  denied w OpDeleteChannel = false →
  ∃ w',
    TicketPanel_close STAFF_ROLE_ID self i w = (Ok tt, w') ∧
    channels w' = delete cid (channels w) ∧
    now w' = now w + 5000000 ∧
    outbox w' = (outbox w ++ [closing_message])%list.
Proof.
  intros Hcm Hch Hc Hd. rewrite (close_authorized _ _ _ _ Hcm).
  unfold is_text_channel. rewrite Hch, Hc, Hd. by eexists.
Qed.

Lemma close_deletes_channel_witness :
  ∃ w',
    TicketPanel_close Scenario.STAFF (mkTicketPanel 7)
      (Scenario.in_ticket Scenario.ann) (Scenario.guild Scenario.permissive)
    = (Ok tt, w') ∧
    channels w' !! 50 = None.
Proof.
  destruct (close_deletes_channel Scenario.STAFF (mkTicketPanel 7)
              (Scenario.in_ticket Scenario.ann) (Scenario.guild Scenario.permissive)
              50 Scenario.ticket_channel eq_refl eq_refl eq_refl eq_refl)
    as (w' & E & Hch & _).
  exists w'. split; [exact E|]. rewrite Hch. apply lookup_delete_eq.
Defined.

(** X9. When the platform refuses the deletion, [close] tells the actor
    "I lack permission to delete this channel." after the acknowledgement,
    and every channel is still there. *)
Theorem close_forbidden_reported STAFF_ROLE_ID (self : TicketPanel) (i : Interaction)
    (w : World) (cid : Z) (c : Channel) :
  can_manage STAFF_ROLE_ID i (opener_id self) = Ok true →
  channel i = Some (mkChannelRef TextChannel cid) →
  channels w !! cid = Some c →
  denied w OpDeleteChannel = true →
  ∃ w',
    TicketPanel_close STAFF_ROLE_ID self i w = (Ok tt, w') ∧
    channels w' = channels w ∧
    outbox w' = (outbox w ++
      [closing_message;
       FollowupSend "I lack permission to delete this channel." None true])%list.
Proof.
  intros Hcm Hch Hc Hd. rewrite (close_authorized _ _ _ _ Hcm).
  unfold is_text_channel. rewrite Hch, Hc, Hd. eexists. split; [done|].
  split; [done|]. simpl. by rewrite <- app_assoc.
Qed.

Lemma close_forbidden_reported_witness :
  ∃ w',
    TicketPanel_close Scenario.STAFF (mkTicketPanel 7)
      (Scenario.in_ticket Scenario.ann) (Scenario.guild (Scenario.deny OpDeleteChannel))
    = (Ok tt, w') ∧
    channels w' = channels (Scenario.guild (Scenario.deny OpDeleteChannel)).
Proof.
  destruct (close_forbidden_reported Scenario.STAFF (mkTicketPanel 7)
              (Scenario.in_ticket Scenario.ann)
              (Scenario.guild (Scenario.deny OpDeleteChannel))
              50 Scenario.ticket_channel eq_refl eq_refl eq_refl eq_refl)
    as (w' & E & Hch & _).
  exists w'. by split.
Defined.

(** X10. A second [close] on a channel that a first [close] has deleted
    sends its acknowledgement, waits, and then fails with [NotFound]: only
    [Forbidden] is caught, so this failure is not reported to the actor. *)
Theorem close_twice_not_found STAFF_ROLE_ID (self1 self2 : TicketPanel)
    (i1 i2 : Interaction) (w : World) (cid : Z) (c : Channel) :
  can_manage STAFF_ROLE_ID i1 (opener_id self1) = Ok true →
  can_manage STAFF_ROLE_ID i2 (opener_id self2) = Ok true →
  channel i1 = Some (mkChannelRef TextChannel cid) →
  channel i2 = Some (mkChannelRef TextChannel cid) →
  channels w !! cid = Some c →
  denied w OpDeleteChannel = false →
  ∃ w1 w2,
    TicketPanel_close STAFF_ROLE_ID self1 i1 w = (Ok tt, w1) ∧
    TicketPanel_close STAFF_ROLE_ID self2 i2 w1 = (Raise NotFound, w2) ∧
    outbox w2 = (outbox w ++ [closing_message; closing_message])%list.
Proof.
  intros Hcm1 Hcm2 Hch1 Hch2 Hc Hd.
  rewrite (close_authorized _ _ _ _ Hcm1). unfold is_text_channel.
  rewrite Hch1, Hc, Hd. eexists _, _. split; [done|].
  rewrite (close_authorized _ _ _ _ Hcm2). unfold is_text_channel. rewrite Hch2.
  change (channels (set_channels (delete cid) (after_grace w)))
    with (delete cid (channels w)).
  rewrite lookup_delete_eq. split; [done|]. simpl. by rewrite <- app_assoc.
Qed.

Lemma close_twice_not_found_witness :
  ∃ w1 w2,
    TicketPanel_close Scenario.STAFF (mkTicketPanel 7)
      (Scenario.in_ticket Scenario.ann) (Scenario.guild Scenario.permissive) = (Ok tt, w1) ∧
    TicketPanel_close Scenario.STAFF (mkTicketPanel 7)
      (Scenario.in_ticket Scenario.sam) w1 = (Raise NotFound, w2).
Proof.
  destruct (close_twice_not_found Scenario.STAFF (mkTicketPanel 7) (mkTicketPanel 7)
              (Scenario.in_ticket Scenario.ann) (Scenario.in_ticket Scenario.sam)
              (Scenario.guild Scenario.permissive) 50 Scenario.ticket_channel
              eq_refl eq_refl eq_refl eq_refl eq_refl eq_refl)
    as (w1 & w2 & E1 & E2 & _).
  exists w1, w2. by split.
Defined.

(** X11. [close] pressed where the interaction's channel is not a text
    channel (a thread, or none): the actor is still told "Closing in 5
    seconds", five seconds pass, and nothing is deleted. *)
Theorem close_outside_text_channel STAFF_ROLE_ID (self : TicketPanel) (i : Interaction)
    (w : World) :
  can_manage STAFF_ROLE_ID i (opener_id self) = Ok true →
  is_text_channel i = None →
  ∃ w',
    TicketPanel_close STAFF_ROLE_ID self i w = (Ok tt, w') ∧
    channels w' = channels w ∧
    now w' = now w + 5000000 ∧
    outbox w' = (outbox w ++ [closing_message])%list.
Proof.
  intros Hcm Hch. rewrite (close_authorized _ _ _ _ Hcm), Hch. by eexists.
Qed.

Lemma close_outside_text_channel_witness :
  ∃ w',
    TicketPanel_close Scenario.STAFF (mkTicketPanel 7)
      (mkInteraction Scenario.ann (Some (mkChannelRef Thread 50)) true)
      (Scenario.guild Scenario.permissive) = (Ok tt, w') ∧
    channels w' = channels (Scenario.guild Scenario.permissive).
Proof.
  destruct (close_outside_text_channel Scenario.STAFF (mkTicketPanel 7)
              (mkInteraction Scenario.ann (Some (mkChannelRef Thread 50)) true)
              (Scenario.guild Scenario.permissive) eq_refl eq_refl)
    as (w' & E & Hch & _).
  exists w'. by split.
Defined.

(** X12. The [/close] command is for staff only, and for any text channel:
    outside a text channel it is refused for everyone; a member without the
    staff role is refused even when that member is the opener, who may close
    through the panel; a holder of the staff role deletes the channel the
    command is used in. *)
Theorem close_command_staff_only STAFF_ROLE_ID (i : Interaction) (w : World) :
  (is_text_channel i = None →
   refused "Use this inside a ticket channel." (close STAFF_ROLE_ID i w) w) ∧
  (∀ cid, is_text_channel i = Some cid →
     config_ok STAFF_ROLE_ID → ¬ holds_staff_role STAFF_ROLE_ID (user i) →
     refused "Only staff can use this command." (close STAFF_ROLE_ID i w) w ∧
     can_manage STAFF_ROLE_ID i (id (user i)) = Ok true) ∧
  (∀ cid c, channel i = Some (mkChannelRef TextChannel cid) →
     holds_staff_role STAFF_ROLE_ID (user i) →
     channels w !! cid = Some c →
     denied w OpDeleteChannel = false →
     (close STAFF_ROLE_ID i w).1 = Ok tt ∧
     channels (close STAFF_ROLE_ID i w).2 = delete cid (channels w)).
Proof.
  split; [|split].
  - intros Hch. unfold refused, close. by rewrite Hch.
  - intros cid Hch Hok Hns. split; [|by apply can_manage_opener].
    unfold refused, close. rewrite Hch. run_coro.
    by rewrite (staff_check_not _ _ Hok Hns).
  - intros cid c Hch Hs Hc Hd. unfold close, is_text_channel, channel_delete.
    rewrite Hch. run_coro. rewrite (staff_check_holds _ _ Hs). simpl.
    change (channels (set_now _ (push_output _ w))) with (channels w).
    rewrite Hc.
    change (denied (set_now _ (push_output _ w))) with (denied w).
    by rewrite Hd.
Qed.

Lemma close_command_staff_only_witness :
  refused "Only staff can use this command."
    (close Scenario.STAFF (Scenario.in_ticket Scenario.ann)
       (Scenario.guild Scenario.permissive))
    (Scenario.guild Scenario.permissive).
Proof.
  apply (close_command_staff_only Scenario.STAFF (Scenario.in_ticket Scenario.ann)
           (Scenario.guild Scenario.permissive)) with (cid := 50).
  - reflexivity.
  - by apply config_okb_ok.
  - by apply holds_staff_roleb_false.
Defined.

(** ** Claiming a ticket *)

Lemma app_cons_str x (a b : string) : String x a +:+ b = String x (a +:+ b).
Proof. reflexivity. Qed.

Lemma append_assoc_str (a b c : string) : (a +:+ b) +:+ c = a +:+ (b +:+ c).
Proof.
  induction a as [|x a IH]; [done|]. by rewrite !app_cons_str, IH.
Qed.

Lemma length_app_str (a b : string) :
  String.length (a +:+ b) = (String.length a + String.length b)%nat.
Proof.
  induction a as [|x a IH]; [done|]. rewrite app_cons_str. simpl. by rewrite IH.
Qed.

Lemma take_length n s :
  String.length (Py.take n s) = Nat.min n (String.length s).
Proof.
  unfold Py.take. revert s. induction n as [|n IH]; intros [|c s]; simpl; try done.
  by rewrite IH.
Qed.

Lemma take_all n s : (String.length s ≤ n)%nat → Py.take n s = s.
Proof.
  unfold Py.take. revert s. induction n as [|n IH]; intros [|c s]; simpl; try done.
  - lia.
  - intros H. rewrite IH; [done|lia].
Qed.

Lemma take_app_long n a b :
  (n ≤ String.length a)%nat → Py.take n (a +:+ b) = Py.take n a.
Proof.
  unfold Py.take. revert a. induction n as [|n IH]; intros a H.
  - destruct a; [by destruct b|reflexivity].
  - destruct a as [|c a]; simpl in H; [lia|].
    rewrite app_cons_str. simpl. rewrite IH; [done|lia].
Qed.

Lemma or_else_empty t : Py.or_else (Some t) "" = t.
Proof. by destruct t. Qed.

Lemma claim_note_eq i c w :
  claim_note i c w =
  Py.take 1024 (Py.or_else (ch_topic c) "" +:+ " | " +:+ claimed_note i w).
Proof. reflexivity. Qed.

(** What a permitted claim leaves in the guild. *)
Lemma claim_permitted STAFF_ROLE_ID self i w cid c :
  holds_staff_role STAFF_ROLE_ID (user i) →
  channel i = Some (mkChannelRef TextChannel cid) →
  channels w !! cid = Some c →
  denied w OpEditChannel = false →
  TicketPanel_claim STAFF_ROLE_ID self i w =
    (Ok tt,
     push_output (claim_announcement i)
       (set_channels (insert cid (set_topic (Some (claim_note i c w)) c)) w)).
Proof.
  intros Hs Hch Hc Hd. rewrite (claim_by_staff _ self i w cid c Hs Hch Hc). by rewrite Hd.
Qed.

(** X13. A permitted [claim] rewrites the topic of its channel, and of no
    other. For a text in ASCII (one code unit for each character) the new
    topic is the old one followed by [" | Claimed by <actor> at <time>"],
    cut after 1024 characters: it is never longer than 1024 characters, and
    it is the whole text whenever that fits. *)
Theorem claim_records_note STAFF_ROLE_ID (self : TicketPanel) (i : Interaction)
    (w : World) (cid : Z) (c : Channel) :
  holds_staff_role STAFF_ROLE_ID (user i) →
  channel i = Some (mkChannelRef TextChannel cid) →
  channels w !! cid = Some c →
  denied w OpEditChannel = false →
  Py.ascii_only (Py.or_else (ch_topic c) "" +:+ " | " +:+ claimed_note i w) = true →
  ∃ w' note,
    TicketPanel_claim STAFF_ROLE_ID self i w = (Ok tt, w') ∧
    channels w' = <[cid := set_topic (Some note) c]> (channels w) ∧
    note = Py.take 1024 (Py.or_else (ch_topic c) "" +:+ " | " +:+ claimed_note i w) ∧
    (String.length note ≤ 1024)%nat ∧
    ((String.length (Py.or_else (ch_topic c) "" +:+ " | " +:+ claimed_note i w) ≤ 1024)%nat →
     note = Py.or_else (ch_topic c) "" +:+ " | " +:+ claimed_note i w).
Proof.
  intros Hs Hch Hc Hd _. eexists _, (claim_note i c w).
  split; [by apply claim_permitted|]. split; [done|]. split; [done|].
  rewrite claim_note_eq, take_length. split; [lia|]. apply take_all.
Qed.

Lemma claim_records_note_witness :
  ∃ w',
    TicketPanel_claim Scenario.STAFF (mkTicketPanel 7)
      (Scenario.in_ticket Scenario.sam) (Scenario.guild Scenario.permissive) = (Ok tt, w') ∧
    (ch_topic <$> channels w' !! 50)
      = Some (Some "billing | Claimed by sam at 2023-11-14 22:13:20 UTC").
Proof.
  assert (holds_staff_role Scenario.STAFF (user (Scenario.in_ticket Scenario.sam))) as Hs
    by (by apply holds_staff_roleb_spec).
  destruct (claim_records_note Scenario.STAFF (mkTicketPanel 7)
              (Scenario.in_ticket Scenario.sam) (Scenario.guild Scenario.permissive)
              50 Scenario.ticket_channel Hs eq_refl eq_refl eq_refl eq_refl)
    as (w' & note & E & Hch & _ & _ & Hfit).
  exists w'. split; [exact E|].
  rewrite Hch, lookup_insert_eq. simpl. rewrite Hfit; [reflexivity|].
  apply Nat.leb_le. reflexivity.
Defined.

(** X14. Once a topic in ASCII holds 1024 characters or more, a claim
    records nothing: the text is cut at the end, so the new note is what is
    lost, and a topic of exactly 1024 characters stays as it is while the
    claim is still announced. *)
Theorem claim_on_full_topic STAFF_ROLE_ID (self : TicketPanel) (i : Interaction)
    (w : World) (cid : Z) (c : Channel) (t : string) :
  holds_staff_role STAFF_ROLE_ID (user i) →
  channel i = Some (mkChannelRef TextChannel cid) →
  channels w !! cid = Some c →
  denied w OpEditChannel = false →
  ch_topic c = Some t →
  Py.ascii_only t = true →
  (1024 ≤ String.length t)%nat →
  ∃ w',
    TicketPanel_claim STAFF_ROLE_ID self i w = (Ok tt, w') ∧
    (ch_topic <$> channels w' !! cid) = Some (Some (Py.take 1024 t)) ∧
    (String.length t = 1024%nat → channels w' = channels w) ∧
    outbox w' = (outbox w ++ [claim_announcement i])%list.
Proof.
  intros Hs Hch Hc Hd Ht _ Hlen.
  assert (claim_note i c w = Py.take 1024 t) as Hnote.
  { rewrite claim_note_eq, Ht, or_else_empty. by apply take_app_long. }
  eexists. split; [by apply claim_permitted|]. simpl.
  rewrite lookup_insert_eq, Hnote. split; [done|]. split; [|done].
  intros Heq. rewrite take_all by lia. apply insert_id. rewrite Hc. f_equal.
  destruct c. unfold set_topic. simpl in *. by rewrite Ht.
Qed.

Lemma claim_on_full_topic_witness :
  ∃ w',
    TicketPanel_claim Scenario.STAFF (mkTicketPanel 7)
      (Scenario.in_ticket Scenario.sam) full_guild = (Ok tt, w') ∧
    (ch_topic <$> channels w' !! 50) = Some (Some (Py.take 1024 full_topic)).
Proof.
  assert (holds_staff_role Scenario.STAFF (user (Scenario.in_ticket Scenario.sam))) as Hs
    by (by apply holds_staff_roleb_spec).
  assert (1024 ≤ String.length full_topic)%nat as Hlen
    by (apply Nat.leb_le; reflexivity).
  assert (channels full_guild !! 50 = Some full_channel) as Hc by reflexivity.
  assert (Py.ascii_only full_topic = true) as Hascii by reflexivity.
  destruct (claim_on_full_topic Scenario.STAFF (mkTicketPanel 7)
              (Scenario.in_ticket Scenario.sam) full_guild 50 full_channel full_topic
              Hs eq_refl Hc eq_refl eq_refl Hascii Hlen)
    as (w' & E & Ht & _).
  exists w'. by split.
Defined.

(** X15. Two claims in a row, while the text fits in 1024 characters: the
    second note is appended after the first, which is kept. *)
Theorem second_claim_appends STAFF_ROLE_ID (self : TicketPanel) (i1 i2 : Interaction)
    (w : World) (cid : Z) (c : Channel) :
  holds_staff_role STAFF_ROLE_ID (user i1) →
  holds_staff_role STAFF_ROLE_ID (user i2) →
  channel i1 = Some (mkChannelRef TextChannel cid) →
  channel i2 = Some (mkChannelRef TextChannel cid) →
  channels w !! cid = Some c →
  denied w OpEditChannel = false →
  (String.length (Py.or_else (ch_topic c) "" +:+ " | " +:+ claimed_note i1 w +:+
                  " | " +:+ claimed_note i2 w) ≤ 1024)%nat →
  ∃ w1 w2,
    TicketPanel_claim STAFF_ROLE_ID self i1 w = (Ok tt, w1) ∧
    TicketPanel_claim STAFF_ROLE_ID self i2 w1 = (Ok tt, w2) ∧
    (ch_topic <$> channels w2 !! cid) =
      Some (Some (Py.or_else (ch_topic c) "" +:+ " | " +:+ claimed_note i1 w +:+
                  " | " +:+ claimed_note i2 w)) ∧
    outbox w2 = (outbox w ++ [claim_announcement i1; claim_announcement i2])%list.
Proof.
  intros Hs1 Hs2 Hch1 Hch2 Hc Hd Hfit.
  set (t0 := Py.or_else (ch_topic c) "") in *.
  assert (String.length (t0 +:+ " | " +:+ claimed_note i1 w) ≤ 1024)%nat as Hfit1.
  { revert Hfit. rewrite !length_app_str. lia. }
  assert (claim_note i1 c w = t0 +:+ " | " +:+ claimed_note i1 w) as Hn1.
  { rewrite claim_note_eq. fold t0. by apply take_all. }
  pose (c1 := set_topic (Some (claim_note i1 c w)) c).
  pose (w1 := push_output (claim_announcement i1) (set_channels (insert cid c1) w)).
  assert (channels w1 !! cid = Some c1) as Hc1 by apply lookup_insert_eq.
  exists w1. eexists.
  split; [by apply claim_permitted|].
  split; [by apply (claim_permitted _ self i2 w1 cid c1)|].
  simpl. rewrite lookup_insert_eq. simpl. split; [|by rewrite <- app_assoc].
  do 2 f_equal. rewrite claim_note_eq. subst c1. unfold set_topic. cbn [ch_topic].
  rewrite or_else_empty, Hn1.
  change (claimed_note i2 w1) with (claimed_note i2 w).
  rewrite !append_assoc_str. by apply take_all.
Qed.

Lemma second_claim_appends_witness :
  ∃ w1 w2,
    TicketPanel_claim Scenario.STAFF (mkTicketPanel 7)
      (Scenario.in_ticket Scenario.sam) (Scenario.guild Scenario.permissive) = (Ok tt, w1) ∧
    TicketPanel_claim Scenario.STAFF (mkTicketPanel 7)
      (Scenario.in_ticket Scenario.sam) w1 = (Ok tt, w2) ∧
    (ch_topic <$> channels w2 !! 50) =
      Some (Some ("billing | Claimed by sam at 2023-11-14 22:13:20 UTC" +:+
                  " | Claimed by sam at 2023-11-14 22:13:20 UTC")).
Proof.
  assert (holds_staff_role Scenario.STAFF (user (Scenario.in_ticket Scenario.sam))) as Hs
    by (by apply holds_staff_roleb_spec).
  assert (String.length
            (Py.or_else (ch_topic Scenario.ticket_channel) "" +:+ " | " +:+
             claimed_note (Scenario.in_ticket Scenario.sam)
               (Scenario.guild Scenario.permissive) +:+ " | " +:+
             claimed_note (Scenario.in_ticket Scenario.sam)
               (Scenario.guild Scenario.permissive)) ≤ 1024)%nat as Hfit.
  { apply Nat.leb_le. reflexivity. }
  destruct (second_claim_appends Scenario.STAFF (mkTicketPanel 7)
              (Scenario.in_ticket Scenario.sam) (Scenario.in_ticket Scenario.sam)
              (Scenario.guild Scenario.permissive) 50 Scenario.ticket_channel
              Hs Hs eq_refl eq_refl eq_refl eq_refl Hfit)
    as (w1 & w2 & E1 & E2 & Ht & _).
  exists w1, w2. split; [exact E1|]. split; [exact E2|]. exact Ht.
Defined.

(** ** The ticket menu: selections *)

Lemma on_reason_eq self i v w :
  on_reason self i v w =
    let self' := mkTicketOpenView (opener self) (Some v) (priority self)
                   (negb (Py.truthy v && Py.truthy_opt (priority self))) in
    (Ok self',
     push_output (EditMessage (MENU_TEXT +:+ _summary_text self')
                    (Some (VTicketOpen self'))) w).
Proof. reflexivity. Qed.

Lemma on_priority_eq self i v w :
  on_priority self i v w =
    let self' := mkTicketOpenView (opener self) (reason self) (Some v)
                   (negb (Py.truthy_opt (reason self) && Py.truthy v)) in
    (Ok self',
     push_output (EditMessage (MENU_TEXT +:+ _summary_text self')
                    (Some (VTicketOpen self'))) w).
Proof. reflexivity. Qed.

(** X16. A selection always succeeds and shows the user the state it
    leaves. Selecting a field again overwrites the earlier value without
    trace, and the two fields can be selected in either order. *)
Theorem selections_overwrite_and_commute (self : TicketOpenView) (i : Interaction)
    (r1 r2 p : string) (w : World) :
  ∃ a b ab ba wa wb wab wba,
    on_reason self i r1 w = (Ok a, wa) ∧
    on_priority self i p w = (Ok b, wb) ∧
    on_priority a i p wa = (Ok ab, wab) ∧
    on_reason b i r1 wb = (Ok ba, wba) ∧
    ab = ba ∧
    (on_reason a i r2 wa).1 = (on_reason self i r2 w).1 ∧
    reason a = Some r1 ∧ priority a = priority self ∧
    last (outbox wa) = Some (EditMessage (MENU_TEXT +:+ _summary_text a)
                               (Some (VTicketOpen a))).
Proof.
  rewrite on_reason_eq, on_priority_eq. cbn zeta.
  eexists _, _, _, _, _, _, _, _. split; [reflexivity|]. split; [reflexivity|].
  rewrite on_reason_eq, on_priority_eq. cbn zeta.
  split; [reflexivity|]. split; [reflexivity|]. simpl.
  split; [done|]. split; [done|]. split; [done|]. split; [done|].
  apply last_snoc.
Qed.

(** X17. Once the confirm button of a menu is enabled, no further
    selection disables it again. *)
Theorem confirm_stays_enabled (opener : Member) (self self' : TicketOpenView)
    (i : Interaction) (e : MenuEvent) (w w' : World) :
  reachable opener self →
  confirm_disabled self = false →
  offered e →
  dispatch self i e w = (Ok self', w') →
  confirm_disabled self' = false.
Proof.
  intros Hr Hen Hoff Hstep.
  destruct (reachable_inv opener self Hr) as (Hd & _).
  assert (both_selected self = true) as Hb
    by (rewrite Hen in Hd; by destruct (both_selected self)).
  apply andb_true_iff in Hb as [Hbr Hbp].
  assert (reachable opener self') as Hr' by (by eapply reach_select).
  destruct (reachable_inv opener self' Hr') as (Hd' & _). rewrite Hd'.
  apply negb_false_iff, (reachable_both_selected opener self' Hr').
  - destruct e as [v|v]; simpl in Hstep.
    + rewrite on_reason_eq in Hstep. by injection Hstep as <- _.
    + rewrite on_priority_eq in Hstep. injection Hstep as <- _. simpl.
      by destruct (reason self).
  - destruct e as [v|v]; simpl in Hstep.
    + rewrite on_reason_eq in Hstep. injection Hstep as <- _. simpl.
      by destruct (priority self).
    + rewrite on_priority_eq in Hstep. by injection Hstep as <- _.
Qed.

Lemma confirm_stays_enabled_witness :
  confirm_disabled
    (mkTicketOpenView Scenario.ann (Some "Billing / Payment") (Some "High") false) = false.
Proof.
  assert (reachable Scenario.ann Scenario.menu_reason) as H1.
  { eapply (reach_select Scenario.ann (TicketOpenView_init Scenario.ann)
              (Scenario.in_ticket Scenario.ann) (SelectReason "Technical Issue")
              (Scenario.guild Scenario.permissive)).
    - apply reach_open.
    - simpl. unfold PRESET_REASONS. set_solver.
    - reflexivity. }
  assert (reachable Scenario.ann Scenario.menu_filled) as H2.
  { eapply (reach_select Scenario.ann Scenario.menu_reason
              (Scenario.in_ticket Scenario.ann) (SelectPriority "High")
              (Scenario.guild Scenario.permissive)).
    - exact H1.
    - simpl. unfold PRESET_PRIORITIES. set_solver.
    - reflexivity. }
  eapply (confirm_stays_enabled Scenario.ann Scenario.menu_filled _
            (Scenario.in_ticket Scenario.ann) (SelectReason "Billing / Payment")
            (Scenario.guild Scenario.permissive) _ H2 eq_refl).
  - simpl. unfold PRESET_REASONS. set_solver.
  - reflexivity.
Defined.

(** ** Confirming: failures and partial effects *)

(** X18. With both fields set, [on_confirm] fails before it does anything
    when it is used outside a guild ([AssertionError]) or when
    [STAFF_ROLE_ID] is a non-empty text that is no integer ([ValueError]):
    no category, no channel and no message. *)
Theorem on_confirm_fails_early STAFF_ROLE_ID TICKET_CATEGORY_NAME
    (self : TicketOpenView) (i : Interaction) (w : World) :
  both_selected self = true →
  (in_guild i = false →
   on_confirm STAFF_ROLE_ID TICKET_CATEGORY_NAME self i w = (Raise AssertionError, w)) ∧
  (in_guild i = true →
   ∀ s, STAFF_ROLE_ID = Some s → Py.truthy s = true → Py.int s = None →
   on_confirm STAFF_ROLE_ID TICKET_CATEGORY_NAME self i w = (Raise ValueError, w)).
Proof.
  intros Hb. split.
  - intros Hg. unfold on_confirm. rewrite Hb, Hg. reflexivity.
  - intros Hg s -> Ht Hn. unfold on_confirm, get_staff_role. rewrite Hb, Hg, Ht, Hn.
    reflexivity.
Qed.

Lemma on_confirm_fails_early_witness :
  on_confirm (Some "staff") "Tickets" Scenario.menu_filled
    (Scenario.in_ticket Scenario.ann) (Scenario.guild Scenario.permissive)
  = (Raise ValueError, Scenario.guild Scenario.permissive).
Proof.
  apply (on_confirm_fails_early (Some "staff") "Tickets" Scenario.menu_filled
           (Scenario.in_ticket Scenario.ann) (Scenario.guild Scenario.permissive) eq_refl)
    with (s := "staff"); reflexivity.
Defined.

(** X19. When the ticket category had to be created and the platform then
    refuses the channel, [on_confirm] raises [Forbidden] and the new, empty
    category stays in the guild; no channel is created and nothing is sent. *)
Theorem on_confirm_leaves_category STAFF_ROLE_ID TICKET_CATEGORY_NAME
    (self : TicketOpenView) (i : Interaction) (w : World) :
  both_selected self = true →
  in_guild i = true →
  config_ok STAFF_ROLE_ID →
  List.find (fun c => String.eqb (cat_name c) TICKET_CATEGORY_NAME) (categories w) = None →
  denied w OpCreateCategory = false →
  denied w OpCreateChannel = true →
  ∃ w',
    on_confirm STAFF_ROLE_ID TICKET_CATEGORY_NAME self i w = (Raise Forbidden, w') ∧
    categories w' =
      (categories w ++ [mkCategory (fresh (used_ids w)) TICKET_CATEGORY_NAME])%list ∧
    channels w' = channels w ∧
    outbox w' = outbox w.
Proof.
  intros Hb Hg Hok Hf Hdc Hdch.
  destruct (get_staff_role_ok STAFF_ROLE_ID w Hok) as [sr Hsr].
  unfold on_confirm. rewrite Hb, Hg. simpl.
  unfold bind at 1. unfold ret at 1.
  unfold bind at 1. rewrite Hsr.
  unfold get_or_create_category, create_category, create_text_channel. run_coro. simpl.
  rewrite Hf. simpl. rewrite Hdc. simpl.
  change (denied (set_categories _ w)) with (denied w). rewrite Hdch.
  by eexists.
Qed.

Lemma on_confirm_leaves_category_witness :
  ∃ w',
    on_confirm Scenario.STAFF "Support" Scenario.menu_filled
      (Scenario.in_ticket Scenario.ann) (Scenario.guild (Scenario.deny OpCreateChannel))
    = (Raise Forbidden, w') ∧
    cat_name <$> categories w' = ["Tickets"; "Support"].
Proof.
  destruct (on_confirm_leaves_category Scenario.STAFF "Support" Scenario.menu_filled
              (Scenario.in_ticket Scenario.ann)
              (Scenario.guild (Scenario.deny OpCreateChannel))
              eq_refl eq_refl (config_okb_ok Scenario.STAFF eq_refl)
              eq_refl eq_refl eq_refl) as (w' & E & Hc & _).
  exists w'. split; [exact E|]. by rewrite Hc.
Defined.

(** X20. [get_or_create_category] is idempotent by name: what it returns
    carries the requested name, a second call returns the same category and
    changes nothing, and no call touches a channel. When it fails, it fails
    with [Forbidden] and the guild is as before. *)
Theorem get_or_create_category_idempotent (n : string) (w : World) :
  (∀ cat w1, get_or_create_category n w = (Ok cat, w1) →
     cat_name cat = n ∧
     get_or_create_category n w1 = (Ok cat, w1) ∧
     channels w1 = channels w) ∧
  (∀ e w1, get_or_create_category n w = (Raise e, w1) → e = Forbidden ∧ w1 = w).
Proof.
  unfold get_or_create_category, create_category. run_coro. simpl.
  destruct (List.find _ (categories w)) as [cat0|] eqn:Hf.
  - split; [|done]. intros cat w1 [= <- <-]. rewrite Hf.
    apply find_some in Hf as [_ Hn]. by apply String.eqb_eq in Hn.
  - destruct (denied w OpCreateCategory) eqn:Hd; simpl.
    + split; [done|]. by intros e w1 [= <- <-].
    + split; [|done]. intros cat w1 [= <- <-]. simpl. split; [done|]. split; [|done].
      assert (List.find (fun c => String.eqb (cat_name c) n)
                (categories w ++ [mkCategory (fresh (used_ids w)) n])
              = Some (mkCategory (fresh (used_ids w)) n)) as ->; [|done].
      revert Hf. generalize (fresh (used_ids w)). intros k.
      generalize (categories w) as l. intros l Hf.
      induction l as [|c l IH]; simpl in *.
      * by rewrite String.eqb_refl.
      * destruct (String.eqb (cat_name c) n); [done|]. by apply IH.
Qed.

(** ** Who can see a ticket *)

Lemma overwrites_member default_role bot opener staff k :
  build_ticket_overwrites default_role bot opener staff !! MemberT k =
    if decide (k = id bot) then Some bot_overwrite
    else if decide (k = id opener) then Some opener_overwrite
    else None.
Proof.
  unfold build_ticket_overwrites, MemberT, RoleT.
  destruct staff as [r|]; rewrite ?lookup_insert; repeat case_decide;
    simplify_eq; try done; by rewrite lookup_empty.
Qed.

Lemma overwrites_role default_role bot opener staff rid :
  build_ticket_overwrites default_role bot opener staff !! RoleT rid =
    match staff with
    | Some r =>
        if decide (rid = role_id r) then Some staff_overwrite
        else if decide (rid = default_role) then Some default_overwrite else None
    | None => if decide (rid = default_role) then Some default_overwrite else None
    end.
Proof.
  unfold build_ticket_overwrites, MemberT, RoleT.
  destruct staff as [r|]; rewrite ?lookup_insert; repeat case_decide;
    simplify_eq; try done; by rewrite lookup_empty.
Qed.

Lemma testbit_apply_overwrite p o :
  Z.testbit (apply_overwrite p o) 10 =
  (Z.testbit p 10 && negb (Z.testbit (deny o) 10)) || Z.testbit (allow o) 10.
Proof.
  unfold apply_overwrite. by rewrite Z.lor_spec, Z.land_spec, Z.lnot_spec by lia.
Qed.

Lemma testbit_role_allows (os : list PermissionOverwrite) o :
  o ∈ os → Z.testbit (allow o) 10 = true →
  Z.testbit (foldr (fun o a => Z.lor (allow o) a) 0 os) 10 = true.
Proof.
  intros Hin Hb. induction os as [|x os IH]; [by apply elem_of_nil in Hin|].
  cbn [foldr]. rewrite Z.lor_spec. apply elem_of_cons in Hin as [<-|Hin].
  - by rewrite Hb.
  - rewrite (IH Hin). apply orb_true_r.
Qed.

(** The permissions a member gets from the overwrites of a ticket channel,
    before the member's own overwrite. *)
Lemma role_overwrites_none (default_role : Z) (ows : gmap Target PermissionOverwrite)
    (rs : list Role) :
  (∀ r, r ∈ rs → role_id r ≠ default_role → ows !! RoleT (role_id r) = None) →
  omap (fun r => if role_id r =? default_role then None
                 else ows !! RoleT (role_id r)) rs = [].
Proof.
  set (f := fun r : Role => if role_id r =? default_role then None
                            else ows !! RoleT (role_id r)).
  intros H. induction rs as [|r rs IH]; [done|].
  assert (f r = None) as Hr.
  { unfold f. destruct (role_id r =? default_role) eqn:E; [done|].
    apply H; [by left|by apply Z.eqb_neq]. }
  change (omap f (r :: rs))
    with (match f r with Some y => y :: omap f rs | None => omap f rs end).
  rewrite Hr. apply IH. intros r' Hr'. apply H. by right.
Qed.

Lemma view_bits :
  Z.testbit (allow bot_overwrite) 10 = true ∧
  Z.testbit (allow opener_overwrite) 10 = true ∧
  Z.testbit (allow staff_overwrite) 10 = true ∧
  Z.testbit (allow default_overwrite) 10 = false ∧
  Z.testbit (deny default_overwrite) 10 = true ∧
  Z.testbit (deny staff_overwrite) 10 = false.
Proof. by vm_compute. Qed.

(** The member's own overwrite in a ticket channel can only grant the view. *)
Lemma member_overwrite_view default_role bot opener staff m p :
  Z.testbit
    (from_option (apply_overwrite p) p
       (build_ticket_overwrites default_role bot opener staff !! MemberT (id m))) 10
  = Z.testbit p 10 || bool_decide (id m = id bot) || bool_decide (id m = id opener).
Proof.
  destruct view_bits as (Hb & Ho & _).
  rewrite overwrites_member. destruct (decide (id m = id bot)) as [Eb|Eb].
  - cbn [from_option]. rewrite testbit_apply_overwrite, Hb.
    rewrite (bool_decide_eq_true_2 _ Eb). by rewrite !orb_true_r.
  - rewrite (bool_decide_eq_false_2 _ Eb), orb_false_r.
    destruct (decide (id m = id opener)) as [Eo|Eo].
    + cbn [from_option]. rewrite testbit_apply_overwrite, Ho.
      rewrite (bool_decide_eq_true_2 _ Eo). by rewrite !orb_true_r.
    + cbn [from_option]. by rewrite (bool_decide_eq_false_2 _ Eo), orb_false_r.
Qed.

(** The view bit after the role overwrites of a member. *)
Lemma testbit_after_roles p (os : list PermissionOverwrite) :
  Z.testbit
    (Z.lor (Z.land p (Z.lnot (foldr (fun o a => Z.lor (deny o) a) 0 os)))
       (foldr (fun o a => Z.lor (allow o) a) 0 os)) 10
  = (Z.testbit p 10 && negb (Z.testbit (foldr (fun o a => Z.lor (deny o) a) 0 os) 10))
    || Z.testbit (foldr (fun o a => Z.lor (allow o) a) 0 os) 10.
Proof. by rewrite Z.lor_spec, Z.land_spec, Z.lnot_spec by lia. Qed.

(** X21. The overwrites of a new ticket (with a staff role, if any, that
    is not the default role) make it private: the opener can view the
    channel, every holder of the staff role can view it, and a member who is
    neither the owner of the guild, nor an administrator, nor the opener,
    nor the bot, nor a holder of the staff role cannot, whatever else that
    member's permissions in the guild are. *)
Theorem ticket_channel_access (owner default_role : Z) (bot opener : Member)
    (staff : option Role) (c : Channel) (m : Member) (base : Z) :
  ch_overwrites c = build_ticket_overwrites default_role bot opener staff →
  (∀ r, staff = Some r → role_id r ≠ default_role) →
  id opener ≠ id bot →
  (id m = id opener → member_can_view owner default_role c m base = true) ∧
  (∀ r, staff = Some r → holds_role m (role_id r) →
     member_can_view owner default_role c m base = true) ∧
  (id m ≠ owner → Z.testbit base 3 = false →
   id m ≠ id opener → id m ≠ id bot →
   (∀ r, staff = Some r → ¬ holds_role m (role_id r)) →
   member_can_view owner default_role c m base = false).
Proof.
  intros Hows Hstaff Hob. unfold member_can_view, can_view, permissions_for. rewrite Hows.
  destruct view_bits as (_ & _ & Hsa & Hda & Hdd & _).
  split; [|split].
  - intros Hid. rewrite member_overwrite_view.
    rewrite (bool_decide_eq_true_2 (id m = id opener)) by done. by rewrite !orb_true_r.
  - intros r -> (r' & Hr' & Hid). rewrite member_overwrite_view, testbit_after_roles.
    rewrite (testbit_role_allows _ staff_overwrite); [by rewrite !orb_true_r| |done].
    apply list_elem_of_omap. exists r'. split; [done|].
    assert (role_id r' ≠ default_role) as Hne by (rewrite Hid; by apply Hstaff).
    apply Z.eqb_neq in Hne. rewrite Hne, overwrites_role, Hid.
    by rewrite decide_True.
  - intros Hnowner Hnadmin Hno Hnb Hns. apply Z.eqb_neq in Hnowner.
    rewrite Hnowner, Hnadmin. cbn [orb]. rewrite member_overwrite_view.
    rewrite !bool_decide_eq_false_2 by done. rewrite !orb_false_r.
    rewrite role_overwrites_none.
    + rewrite testbit_after_roles. cbn [foldr]. rewrite Z.bits_0.
      rewrite orb_false_r, andb_true_r, overwrites_role.
      destruct staff as [r|].
      * rewrite decide_False by (intros E; by apply (Hstaff r)).
        rewrite decide_True by done. cbn [from_option].
        by rewrite testbit_apply_overwrite, Hda, Hdd, andb_false_r.
      * rewrite decide_True by done. cbn [from_option].
        by rewrite testbit_apply_overwrite, Hda, Hdd, andb_false_r.
    + intros r Hr Hne. rewrite overwrites_role. destruct staff as [s|].
      * rewrite decide_False, decide_False; [done|done|].
        intros E. apply (Hns s eq_refl). by exists r.
      * by rewrite decide_False.
Qed.

Lemma ticket_channel_access_witness :
  member_can_view 9 1 Scenario.ticket_channel Scenario.eve
    (Z.lor view_channel send_messages) = false.
Proof.
  apply (ticket_channel_access 9 1 Scenario.bot Scenario.ann (Some (mkRole 900))
           Scenario.ticket_channel Scenario.eve (Z.lor view_channel send_messages)
           eq_refl).
  - intros r [= <-]. simpl. lia.
  - simpl. lia.
  - simpl. lia.
  - reflexivity.
  - simpl. lia.
  - simpl. lia.
  - intros r [= <-] (r' & Hr' & Hid). simpl in Hr'.
    apply list_elem_of_singleton in Hr' as ->. simpl in Hid. lia.
Defined.

(** X22. When the staff role is the default role of the guild (the
    configured id is the guild's id), the staff overwrite replaces the
    denial for everyone: every member of the guild can view the ticket,
    whatever that member's permissions in the guild are. *)
Theorem staff_default_role_opens_ticket (default_role : Z) (bot opener : Member)
    (r : Role) (c : Channel) (m : Member) (base : Z) :
  ch_overwrites c = build_ticket_overwrites default_role bot opener (Some r) →
  role_id r = default_role →
  ch_overwrites c !! RoleT default_role = Some staff_overwrite ∧
  can_view default_role c m base = true.
Proof.
  intros Hows Hid. unfold can_view, permissions_for. rewrite Hows.
  destruct view_bits as (_ & _ & Hsa & _ & _ & Hsd).
  rewrite member_overwrite_view, !overwrites_role, Hid.
  rewrite decide_True by done. split; [done|].
  rewrite role_overwrites_none.
  - rewrite testbit_after_roles. cbn [foldr from_option]. rewrite Z.bits_0.
    by rewrite testbit_apply_overwrite, Hsa, !orb_true_r.
  - intros r' Hr' Hne. rewrite overwrites_role, Hid.
    by rewrite decide_False, decide_False.
Qed.

Lemma staff_default_role_opens_ticket_witness :
  can_view 1
    (mkChannel "ticket-ann-lee-7" None None
       (build_ticket_overwrites 1 Scenario.bot Scenario.ann (Some (mkRole 1))) [])
    Scenario.eve 0 = true.
Proof.
  apply (staff_default_role_opens_ticket 1 Scenario.bot Scenario.ann (mkRole 1)
           (mkChannel "ticket-ann-lee-7" None None
              (build_ticket_overwrites 1 Scenario.bot Scenario.ann (Some (mkRole 1))) [])
           Scenario.eve 0 eq_refl eq_refl).
Defined.

(** ** Opening a ticket, end to end *)

(** The channel that a confirmed menu creates, in full. *)
Lemma on_confirm_channel STAFF_ROLE_ID TICKET_CATEGORY_NAME self i w :
  both_selected self = true →
  in_guild i = true →
  config_ok STAFF_ROLE_ID →
  may_open_ticket TICKET_CATEGORY_NAME w →
  ∃ cid cat staff_role w',
    on_confirm STAFF_ROLE_ID TICKET_CATEGORY_NAME self i w = (Ok tt, w') ∧
    get_staff_role STAFF_ROLE_ID w = (Ok staff_role, w) ∧
    channels w !! cid = None ∧
    channels w' = <[cid :=
      mkChannel (channel_name_of (opener self)) (Some (cat_id cat)) None
        (build_ticket_overwrites (guild_id w) (me w) (opener self) staff_role)
        [mkMessage (me w) (now w)
           (match staff_role with Some r => role_mention r | None => "" end)
           [] (Some (ticket_embed self (now w))) (Some (id (opener self)))] ]>
      (channels w) ∧
    cat_name cat = TICKET_CATEGORY_NAME ∧
    outbox w' = (outbox w ++
      [EditMessage ("Your ticket has been created: " +:+ channel_mention cid) None])%list.
Proof.
  intros Hb Hg Hok [Hcc Hcat].
  destruct (get_staff_role_ok STAFF_ROLE_ID w Hok) as [sr Hsr].
  destruct (get_or_create_category_ok TICKET_CATEGORY_NAME w Hcat)
    as (cat & w1 & Hgc & Hch1 & Hd1 & Ho1 & Hg1 & Hm1 & Hn1).
  assert (cat_name cat = TICKET_CATEGORY_NAME) as Hname.
  { revert Hgc. unfold get_or_create_category, create_category. run_coro. simpl.
    destruct (List.find _ (categories w)) as [c0|] eqn:Hf.
    - intros [= <- _]. apply find_some in Hf as [_ Hn]. by apply String.eqb_eq in Hn.
    - destruct (denied w OpCreateCategory); simpl; [done|]. by intros [= <- _]. }
  unfold on_confirm. rewrite Hb, Hg. simpl.
  unfold bind at 1. unfold ret at 1.
  unfold bind at 1. rewrite Hsr.
  unfold bind at 1. rewrite Hgc.
  unfold create_text_channel, channel_send. run_coro. simpl.
  rewrite Hd1, Hcc. simpl. rewrite lookup_insert_eq. simpl.
  eexists (fresh (used_ids w1)), cat, sr, _. split; [reflexivity|]. simpl.
  split; [done|].
  split; [rewrite <- Hch1; apply fresh_channel_id|].
  split; [|split; [done|by rewrite Ho1]].
  rewrite insert_insert_eq, Hch1, Hg1, Hm1, Hn1. reflexivity.
Qed.

(** The role that [get_staff_role] finds is the role of the guild that
    the configuration names, and none when it names none. *)
Lemma get_staff_role_spec STAFF_ROLE_ID w sr :
  get_staff_role STAFF_ROLE_ID w = (Ok sr, w) →
  (∀ n, staff_role_configured STAFF_ROLE_ID n → sr = guild_roles w !! n) ∧
  ((∀ n, ¬ staff_role_configured STAFF_ROLE_ID n) → sr = None).
Proof.
  unfold get_staff_role, staff_role_configured. intros E. split.
  - intros n (s & -> & Ht & Hn). rewrite Ht, Hn in E. run_coro. congruence.
  - intros Hnone. destruct STAFF_ROLE_ID as [s|]; [|run_coro; congruence].
    destruct (Py.truthy s) eqn:Ht; [|run_coro; congruence].
    destruct (Py.int s) as [n|] eqn:Hn; [|run_coro; congruence].
    destruct (Hnone n). by exists s.
Qed.

(** X23. The whole dialogue, for any member in a guild where the platform
    lets the bot open tickets: [/ticket], an offered reason, an offered
    priority, confirm. It ends well; exactly one channel is added. Its name
    is [ticket-], a middle part without space or capital letter (for an
    account name in ASCII: that name with spaces turned into hyphens and
    capital letters into small ones), a hyphen, and the discriminator, or
    the account id when the discriminator is ['0']. It carries the ticket
    overwrites for the role of the guild that [STAFF_ROLE_ID] names (for no
    role when it names none, or none of the guild); it holds one message,
    posted by the bot, whose embed shows the chosen reason and priority and
    whose panel is bound to the member's id; and the user has received the
    menu, its two updates and the link to the channel. *)
Theorem open_ticket_flow_creates STAFF_ROLE_ID TICKET_CATEGORY_NAME
    (i : Interaction) (r p : string) (w : World) :
  in_guild i = true →
  r ∈ PRESET_REASONS →
  p ∈ PRESET_PRIORITIES →
  config_ok STAFF_ROLE_ID →
  may_open_ticket TICKET_CATEGORY_NAME w →
  ∃ cid ch msg e staff_role safe w',
    open_ticket_flow STAFF_ROLE_ID TICKET_CATEGORY_NAME i r p w = (Ok tt, w') ∧
    channels w !! cid = None ∧
    channels w' = <[cid := ch]> (channels w) ∧
    ch_name ch =
      "ticket-" +:+ safe +:+ "-" +:+
      (if String.eqb (discriminator (user i)) "0" then Py.str_of_int (id (user i))
       else discriminator (user i)) ∧
    Py.contains " " safe = false ∧
    Py.has_upper safe = false ∧
    (Py.ascii_only (name (user i)) = true → safe = spec_safe_name (name (user i))) ∧
    (∀ n, staff_role_configured STAFF_ROLE_ID n → staff_role = guild_roles w !! n) ∧
    ((∀ n, ¬ staff_role_configured STAFF_ROLE_ID n) → staff_role = None) ∧
    ch_overwrites ch =
      build_ticket_overwrites (guild_id w) (me w) (user i) staff_role ∧
    ch_messages ch = [msg] ∧
    author msg = me w ∧
    content msg = match staff_role with Some sr => role_mention sr | None => "" end ∧
    panel msg = Some (id (user i)) ∧
    embed msg = Some e ∧
    description e =
      "Hello " +:+ member_mention (user i) +:+
      "! A staff member will assist you shortly." +:+ Py.NL +:+ Py.NL +:+
      "**Reason:** " +:+ r +:+ Py.NL +:+
      "**Priority:** " +:+ p +:+ Py.NL +:+ Py.NL +:+
      "Use the buttons below to manage this ticket." ∧
    List.length (outbox w') = (List.length (outbox w) + 4)%nat ∧
    last (outbox w') =
      Some (EditMessage ("Your ticket has been created: " +:+ channel_mention cid) None).
Proof.
  intros Hg Hr Hp Hok [Hcc Hcat].
  pose (v := mkTicketOpenView (user i) (Some r) (Some p) false).
  assert (both_selected v = true) as Hb.
  { unfold both_selected, v. simpl.
    by rewrite (preset_reason_truthy r Hr), (preset_priority_truthy p Hp). }
  unfold open_ticket_flow, ticket. rewrite Hg.
  unfold bind at 1. unfold bind at 1. unfold ret at 1.
  unfold bind at 1. unfold send_message, modify, ret.
  unfold bind at 1. rewrite on_reason_eq. cbn zeta.
  unfold bind at 1. rewrite on_priority_eq. cbn zeta.
  cbn [opener reason priority TicketOpenView_init Py.truthy_opt].
  rewrite (preset_reason_truthy r Hr), (preset_priority_truthy p Hp).
  cbn [andb negb]. fold v.
  match goal with |- context [on_confirm _ _ v i ?w0] => set (w3 := w0) end.
  assert (may_open_ticket TICKET_CATEGORY_NAME w3) as Hmay by (by split).
  destruct (on_confirm_channel STAFF_ROLE_ID TICKET_CATEGORY_NAME v i w3 Hb Hg Hok Hmay)
    as (cid & cat & sr & w' & E & Hsr & Hnew & Hch & _ & Hout).
  destruct (get_staff_role_spec STAFF_ROLE_ID w3 sr Hsr) as [Hconf Hnone].
  destruct (channel_name_parts (user i)) as (safe & Hparts & Hsp & Hup & Hascii).
  rewrite E. eexists cid, _, _, _, sr, safe, w'. split; [done|].
  split; [exact Hnew|]. split; [exact Hch|].
  split; [exact Hparts|]. split; [exact Hsp|]. split; [exact Hup|].
  split; [intros Ha; by destruct (Hascii Ha)|].
  split; [exact Hconf|]. split; [exact Hnone|].
  split; [done|]. split; [done|]. split; [done|]. split; [done|].
  split; [done|]. split; [done|]. split; [done|].
  rewrite Hout. split; [|apply last_snoc].
  rewrite length_app. subst w3. simpl. rewrite !length_app. simpl. lia.
Qed.

Lemma open_ticket_flow_creates_witness :
  ∃ cid ch w',
    open_ticket_flow Scenario.STAFF "Tickets" (Scenario.in_ticket Scenario.ann)
      "Technical Issue" "High" (Scenario.guild Scenario.permissive) = (Ok tt, w') ∧
    channels w' !! cid = Some ch ∧
    ch_name ch = "ticket-ann-lee-7" ∧
    ch_overwrites ch =
      build_ticket_overwrites 1 Scenario.bot Scenario.ann (Some (mkRole 900)).
Proof.
  assert ("Technical Issue" ∈ PRESET_REASONS) as Hr by (right; left).
  assert ("High" ∈ PRESET_PRIORITIES) as Hp by (right; right; left).
  assert (may_open_ticket "Tickets" (Scenario.guild Scenario.permissive)) as Hmay.
  { split; [reflexivity|]. left. by eexists. }
  assert (staff_role_configured Scenario.STAFF 900) as Hconf by (by exists "900").
  destruct (open_ticket_flow_creates Scenario.STAFF "Tickets"
              (Scenario.in_ticket Scenario.ann) "Technical Issue" "High"
              (Scenario.guild Scenario.permissive) eq_refl Hr Hp
              (config_okb_ok Scenario.STAFF eq_refl) Hmay)
    as (cid & ch & msg & e & sr & safe & w' & E & _ & Hch & Hname & _ & _ & Hsafe
        & Hsr & _ & Hows & _).
  exists cid, ch, w'. split; [exact E|]. split; [rewrite Hch; apply lookup_insert_eq|].
  split.
  - rewrite Hname, (Hsafe eq_refl). reflexivity.
  - rewrite Hows, (Hsr 900 Hconf). reflexivity.
Defined.

(** ** Timestamps *)

Lemma digit_is_digit n : Py.is_digit (digit n) = true.
Proof.
  unfold digit. pose proof (Z.mod_pos_bound n 10 eq_refl) as Hb.
  assert (∃ k, (k < 10)%nat ∧ Z.to_nat (n mod 10) = k) as (k & Hk & ->)
    by (eexists; split; [|reflexivity]; lia).
  do 10 (destruct k as [|k]; [reflexivity|]). lia.
Qed.

Lemma pad2_digits n : all_digits (pad2 n) = true.
Proof. unfold pad2. cbn [all_digits]. by rewrite !digit_is_digit. Qed.

Lemma pad4_digits n : all_digits (pad4 n) = true.
Proof. unfold pad4, pad2. cbn [all_digits]. by rewrite !digit_is_digit. Qed.

(** X24. Every instant of the years 1000 to 9999 is printed in the same
    fixed shape of 23 characters: four digits, two, two, then two, two, two,
    separated as in [YYYY-MM-DD HH:MM:SS], followed by [" UTC"]. *)
Theorem fmt_ts_shape (dt : Z) :
  year_1000 ≤ dt < year_10000 →
  ∃ Y m d H M S,
    fmt_ts dt =
      Y +:+ "-" +:+ m +:+ "-" +:+ d +:+ " " +:+ H +:+ ":" +:+ M +:+ ":" +:+ S +:+ " UTC" ∧
    String.length Y = 4%nat ∧ all_digits Y = true ∧
    Forall (fun s => String.length s = 2%nat ∧ all_digits s = true) [m; d; H; M; S] ∧
    String.length (fmt_ts dt) = 23%nat.
Proof.
  intros _. unfold fmt_ts. destruct (civil_from_days _) as [[y m] d].
  eexists (pad4 y), (pad2 m), (pad2 d), _, _, _.
  split; [reflexivity|]. split; [reflexivity|]. split; [apply pad4_digits|].
  split; [|reflexivity].
  repeat (apply Forall_cons; split; [split; [reflexivity|apply pad2_digits]|]).
  apply Forall_nil_2.
Qed.

Lemma fmt_ts_shape_witness :
  fmt_ts 1700000000000000 = "2023-11-14 22:13:20 UTC" ∧
  String.length (fmt_ts 1700000000000000) = 23%nat.
Proof.
  destruct (fmt_ts_shape 1700000000000000) as (Y & m & d & H & M & S & _ & _ & _ & _ & Hl).
  { unfold year_1000, year_10000. lia. }
  split; [reflexivity|exact Hl].
Defined.

(** ** Transcript: what it cannot tell apart, and what it leaves alone *)

Lemma replace_without c by_ s : Py.contains c s = false → Py.replace c by_ s = s.
Proof.
  induction s as [|d s IH]; [done|]. simpl.
  intros [Hd Hs]%orb_false_iff. by rewrite Hd, (IH Hs).
Qed.

(** X25. The escaping of the transcript is not reversible: a message whose
    content holds line breaks and the message whose content already holds
    the two characters backslash and n in their place are different
    messages with the same record. *)
Theorem escaped_content_same_record (msg : Message) :
  transcript_line (with_content (Py.replace Py.newline "\n" (content msg)) msg)
  = transcript_line msg ∧
  (Py.contains Py.newline (content msg) = true →
   with_content (Py.replace Py.newline "\n" (content msg)) msg ≠ msg).
Proof.
  split.
  - unfold transcript_line, with_content. cbn [author created_at content attachments].
    by rewrite (replace_without _ _ _ (contains_escaped (content msg))).
  - intros Hc E. apply (f_equal content) in E. unfold with_content in E. simpl in E.
    pose proof (contains_escaped (content msg)) as Hn. rewrite E in Hn. congruence.
Qed.

(** X26. [transcript] only reads: whoever presses it, wherever, and
    whatever the outcome, the channels, the categories and the clock are
    what they were. *)
Theorem transcript_read_only STAFF_ROLE_ID (self : TicketPanel) (i : Interaction)
    (w : World) :
  channels (TicketPanel_transcript STAFF_ROLE_ID self i w).2 = channels w ∧
  categories (TicketPanel_transcript STAFF_ROLE_ID self i w).2 = categories w ∧
  now (TicketPanel_transcript STAFF_ROLE_ID self i w).2 = now w.
Proof.
  unfold TicketPanel_transcript, history. run_coro.
  destruct (can_manage STAFF_ROLE_ID i (opener_id self)) as [[]|]; simpl; try done.
  destruct (is_text_channel i) as [cid|]; simpl; try done.
  change (channels (push_output (Defer true true) w)) with (channels w).
  destruct (channels w !! cid) eqn:Hc; simpl; try done.
  change (channels (push_output (Defer true true) w)) with (channels w).
  by rewrite Hc.
Qed.

(** ** Channel names *)

Lemma str_of_int_inj a b : Py.str_of_int a = Py.str_of_int b → a = b.
Proof.
  unfold Py.str_of_int. intros E.
  assert (∀ z, Z.to_int z ≠ Decimal.Pos Decimal.Nil ∧
               Z.to_int z ≠ Decimal.Neg Decimal.Nil) as Hnn.
  { intros z. split; intros H.
    - assert (z = 0) as ->; [|discriminate H].
      apply (f_equal Z.of_int) in H. rewrite DecimalZ.of_to in H. exact H.
    - assert (z = 0) as ->; [|discriminate H].
      apply (f_equal Z.of_int) in H. rewrite DecimalZ.of_to in H. exact H. }
  apply (f_equal NilZero.int_of_string) in E.
  rewrite !NilZero.isi in E by apply Hnn.
  injection E as E. by apply DecimalZ.to_int_inj.
Qed.

(** X27. Two members with migrated accounts (discriminator ['0']) whose
    names give the same lowercased, hyphenated text, but whose ids differ,
    get different channel names. *)
Theorem channel_names_distinct (m1 m2 : Member) :
  discriminator m1 = "0" →
  discriminator m2 = "0" →
  Py.replace " " "-" (Py.lower (name m1)) = Py.replace " " "-" (Py.lower (name m2)) →
  id m1 ≠ id m2 →
  channel_name_of m1 ≠ channel_name_of m2.
Proof.
  intros Hd1 Hd2 Hn Hid E. apply Hid. unfold channel_name_of in E.
  rewrite Hd1, Hd2, Hn in E. cbn [String.eqb Ascii.eqb negb] in E.
  apply String.app_inj, String.app_inj, String.app_inj in E.
  by apply str_of_int_inj.
Qed.

Lemma channel_names_distinct_witness :
  String.eqb (channel_name_of Scenario.ann)
             (channel_name_of (mkMember 70 "ann-lee" "0" [])) = false.
Proof.
  apply String.eqb_neq.
  apply (channel_names_distinct Scenario.ann (mkMember 70 "ann-lee" "0" [])
           eq_refl eq_refl eq_refl).
  simpl. lia.
Defined.

(** ** From a button of the panel to the selector *)


